(** * The Wikipedia skill: query resolution and "tell me more" pagination

    A shallow embedding of [__init__.py]: the [WikipediaSolver] (secondary
    search, page data merge, expansion of an answer into spoken steps) and
    the [WikipediaSkill] facade (the pagination cursor driven by the intent
    handlers).

    Python values are kept dynamically typed, so that truthiness tests,
    [dict.get], [dict.update] and the exceptions of ill-typed operations are
    the ones of the source.  Everything that lives outside the repository
    (wikipedia_for_humans, simplematch, the keyword extractor, the methods
    inherited from QuestionSolver, the host runtime) is a field of a record
    of oracles which may return a value or raise. *)

From stdpp Require Import gmap strings list fin_maps.
From Stdlib Require Import ZArith Ascii String.

Set Warnings "-register-all".
Open Scope string_scope.
Open Scope Z_scope.
Open Scope list_scope.

(** ** Python values *)

Inductive value : Type :=
| VNone
| VStr (s : string)
| VList (l : list value)
| VDict (d : gmap string value).

(** Exceptions: the ones Python raises on ill-typed operations, and the
    faults of the external libraries. *)
Inductive exn : Type :=
| KeyError (k : string)
| IndexError
| TypeError
| AttributeError
| LibraryError (msg : string).

Inductive res (A : Type) : Type :=
| Ok (a : A)
| Raise (e : exn).
Arguments Ok {A} a.
Arguments Raise {A} e.

(** [bool(v)] *)
Definition truthy (v : value) : bool :=
  match v with
  | VNone => false
  | VStr s => negb (String.eqb s "")
  | VList l => match l with [] => false | _ => true end
  | VDict d => negb (Nat.eqb (size d) 0)
  end.

(** [a or b] *)
Definition py_or (a b : value) : value := if truthy a then a else b.

(** [v.get(k)] and [v.get(k, dflt)]: only dicts have the method. *)
Definition py_get (v : value) (k : string) (dflt : value) : res value :=
  match v with
  | VDict d => Ok (default dflt (d !! k))
  | _ => Raise AttributeError
  end.

(** [v[k]] with a string key. *)
Definition py_getitem (v : value) (k : string) : res value :=
  match v with
  | VDict d => match d !! k with Some x => Ok x | None => Raise (KeyError k) end
  | _ => Raise TypeError
  end.

(** [l[i]] on a list, negative indices counting from the end. *)
Definition list_index {A : Type} (l : list A) (i : Z) : res A :=
  let n := Z.of_nat (List.length l) in
  let j := if i <? 0 then i + n else i in
  if (j <? 0) || (n <=? j) then Raise IndexError
  else match l !! Z.to_nat j with Some x => Ok x | None => Raise IndexError end.

(** [l[:n]]: the first [n] elements, or all but the last [-n] when [n] is
    negative. *)
Definition py_slice_to {A : Type} (l : list A) (n : Z) : list A :=
  let len := Z.of_nat (List.length l) in
  let stop := if n <? 0 then Z.max 0 (n + len) else Z.min n len in
  take (Z.to_nat stop) l.

(** [v[0]] *)
Definition py_first (v : value) : res value :=
  match v with
  | VList l => list_index l 0
  | VStr s => match s with
              | EmptyString => Raise IndexError
              | String c _ => Ok (VStr (String c EmptyString))
              end
  | VDict _ => Raise (KeyError "0")
  | VNone => Raise TypeError
  end.

(** The elements visited by [for x in v]. *)
Fixpoint chars (s : string) : list value :=
  match s with
  | EmptyString => []
  | String c s' => VStr (String c EmptyString) :: chars s'
  end.

Definition py_iter (v : value) : res (list value) :=
  match v with
  | VList l => Ok l
  | VStr s => Ok (chars s)
  | VDict d => Ok ((λ kv, VStr kv.1) <$> map_to_list d)
  | VNone => Raise TypeError
  end.

(** [s.split("-")[0]]: the part of [s] before its first ["-"]. *)
Fixpoint split_dash_first (s : string) : string :=
  match s with
  | EmptyString => EmptyString
  | String c s' =>
      if Ascii.eqb c "-"%char then EmptyString else String c (split_dash_first s')
  end.

(** [v.split("-")[0]] *)
Definition py_split_dash_first (v : value) : res string :=
  match v with
  | VStr s => Ok (split_dash_first s)
  | _ => Raise AttributeError
  end.

(** ** External collaborators of the solver *)

(** The template of [get_secondary_search]. *)
Definition pattern : string := "what is the {subquery} of {query}".

Record Library : Type := {
  (** wikipedia_for_humans *)
  wfh_page_data : value → string → res value;
  wfh_tldr : value → string → res value;
  wfh_summary : value → string → res value;
  wfh_tldr_about : value → value → string → res value;
  wfh_ask_about : value → value → string → res value;
  (** [HeuristicExtractor().extract_subject(query, lang)] *)
  extract_subject : string → string → res value;
  (** [simplematch.match(template, text)]: the captures, or [None] *)
  simplematch_match : string → string → option (gmap string value);
  (** inherited from QuestionSolver *)
  sentence_split : value → Z → res (list string);
  search : value → gmap string value → res value;
  long_answer : string → string → res (list (gmap string value));
  base_default_lang : gmap string value → string;
  (** [str.title()] *)
  str_title : string → string;
}.

(** Calls that leave the solver, in the order they are made; the entry of
    [get_secondary_search] is recorded too. *)
Inductive call : Type :=
| CPageData (q : value) (lang : string)
| CTldr (q : value) (lang : string)
| CSummary (q : value) (lang : string)
| CTldrAbout (sub q : value) (lang : string)
| CAskAbout (sub q : value) (lang : string)
| CExtract (q : string) (lang : string)
| CMatch (template q : string)
| CSplit (text : value) (n : Z)
| CSearch (q : value) (ctx : gmap string value)
| CSecondary (q : string) (lang : string).

(** The language a call is made in, for the calls that take one. *)
Definition call_lang (c : call) : option string :=
  match c with
  | CPageData _ l | CTldr _ l | CSummary _ l
  | CTldrAbout _ _ l | CAskAbout _ _ l | CExtract _ l | CSecondary _ l => Some l
  | CMatch _ _ | CSplit _ _ | CSearch _ _ => None
  end.

Definition is_secondary (c : call) : bool :=
  match c with CSecondary _ _ => true | _ => false end.

(** ** The solver monad: a log of calls and a result or an exception *)

Definition M (A : Type) : Type := (list call * res A)%type.

Definition ret {A} (a : A) : M A := ([], Ok a).

Definition bind {A B} (m : M A) (f : A → M B) : M B :=
  match m with
  | (l, Ok a) => let '(l', r) := f a in (l ++ l', r)
  | (l, Raise e) => (l, Raise e)
  end.

Definition lift {A} (r : res A) : M A := ([], r).
Definition ext {A} (c : call) (r : res A) : M A := ([c], r).

(** [try: m except: h] with a bare [except]. *)
Definition catch {A} (m : M A) (h : M A) : M A :=
  match m with
  | (l, Ok a) => (l, Ok a)
  | (l, Raise _) => let '(l', r) := h in (l ++ l', r)
  end.

Definition trace {A} (m : M A) : list call := m.1.
Definition outcome {A} (m : M A) : res A := m.2.

Notation "x <- m ; k" := (bind m (fun x => k))
  (at level 20, m at level 100, k at level 200, only parsing).
Notation "' p <- m ; k" := (bind m (fun x => let 'p := x in k))
  (at level 20, p pattern, m at level 100, k at level 200, only parsing).

Fixpoint mapM {A B} (f : A → M B) (l : list A) : M (list B) :=
  match l with
  | [] => ret []
  | x :: l' => y <- f x ; ys <- mapM f l' ; ret (y :: ys)
  end.

(** ** WikipediaSolver *)

Record solver : Type := {
  solver_config : gmap string value;
  default_lang : string;
}.

(** [WikipediaSolver.__init__]: the language entry is overwritten before the
    base class reads the configuration. *)
Definition solver_init_config (config : option (gmap string value)) : gmap string value :=
  let config := match config with
                | Some c => if truthy (VDict c) then c else ∅
                | None => ∅
                end in
  <["lang" := VStr "en"]> config.

Definition WikipediaSolver_init (lib : Library) (config : option (gmap string value)) : solver :=
  let config := solver_init_config config in
  {| solver_config := config; default_lang := base_default_lang lib config |}.

Section Solver.
Variable lib : Library.
Variable self : solver.

Definition extract_keyword (query : string) (lang : string) : M value :=
  ext (CExtract query lang) (extract_subject lib query lang).

Definition get_secondary_search (query : string) (lang : string) : M (value * value) :=
  _ <- ext (CSecondary query lang) (Ok tt) ;
  let fallback := (q <- extract_keyword query lang ; ret (q, VNone)) in
  if String.eqb lang "en" then
    m <- ext (CMatch pattern query) (Ok (simplematch_match lib pattern query)) ;
    match m with
    | Some d =>
        if truthy (VDict d) then
          q <- lift (py_getitem (VDict d) "query") ;
          sub <- lift (py_getitem (VDict d) "subquery") ;
          ret (q, sub)
        else fallback
    | None => fallback
    end
  else fallback.

(** [context = context or {}] *)
Definition context_or_empty (context : option (gmap string value)) : gmap string value :=
  match context with
  | Some c => if truthy (VDict c) then c else ∅
  | None => ∅
  end.

(** [lang = context.get("lang") or self.default_lang; lang = lang.split("-")[0]] *)
Definition request_lang (context : gmap string value) : M string :=
  lift (py_split_dash_first
          (py_or (default VNone (context !! "lang")) (VStr (default_lang self)))).

Definition extract_and_search (query : string) (context : option (gmap string value)) : M value :=
  let context := context_or_empty context in
  lang <- request_lang context ;
  query <- extract_keyword query lang ;
  if negb (truthy query) then ret (VDict ∅)
  else ext (CSearch query context) (search lib query context).

Definition fetch_plain (q : value) (lang : string) : M (gmap string value) :=
  sa <- ext (CTldr q lang) (wfh_tldr lib q lang) ;
  su <- ext (CSummary q lang) (wfh_summary lib q lang) ;
  ret (<["short_answer" := sa]> (<["summary" := su]> ∅)).

Definition fetch_about (sub q : value) (lang : string) : M (gmap string value) :=
  sa <- ext (CTldrAbout sub q lang) (wfh_tldr_about lib sub q lang) ;
  su <- ext (CAskAbout sub q lang) (wfh_ask_about lib sub q lang) ;
  ret (<["short_answer" := sa]> (<["summary" := su]> ∅)).

(** [page_data.update(data)] *)
Definition py_update (page_data : value) (data : gmap string value) : res (gmap string value) :=
  match page_data with
  | VDict d => Ok (data ∪ d)
  | _ => Raise AttributeError
  end.

Definition get_data (query : string) (context : option (gmap string value))
  : M (gmap string value) :=
  let context := context_or_empty context in
  lang <- request_lang context ;
  pd <- ext (CPageData (VStr query) lang) (wfh_page_data lib (VStr query) lang) ;
  let page_data := py_or pd (VDict ∅) in
  data <- fetch_plain (VStr query) lang ;
  '(query', data) <-
    (if negb (truthy page_data) then
       '(q, subquery) <- get_secondary_search query lang ;
       if truthy subquery then
         data <- fetch_about subquery q lang ; ret (q, data)
       else
         data <- fetch_plain q lang ; ret (q, data)
     else ret (VStr query, data)) ;
  page_data <- lift (py_update page_data data) ;
  ret (<["title" := py_or (default VNone (page_data !! "title")) query']> page_data).

Definition get_spoken_answer (query : string) (context : option (gmap string value)) : M value :=
  data <- extract_and_search query context ;
  lift (py_get data "summary" (VStr "")).

Definition get_image (query : string) (context : option (gmap string value)) : M value :=
  data <- extract_and_search query context ;
  catch (lift (match py_getitem data "images" with
               | Ok imgs => py_first imgs
               | Raise e => Raise e
               end))
        (ret VNone).

(** [x.title()] *)
Definition py_title (v : value) : res value :=
  match v with
  | VStr s => Ok (VStr (str_title lib s))
  | _ => Raise AttributeError
  end.

Definition step (title : value) (s : string) (img : value) : gmap string value :=
  <["title" := title]> (<["summary" := VStr s]> (<["img" := img]> ∅)).

(** One comprehension
    [[{"title": holder.get("title", query).title(), "summary": s, "img": img}
      for s in self.sentence_split(text, -1)]]. *)
Definition steps_of (holder : value) (query : string) (text : value) (img : value)
  : M (list (gmap string value)) :=
  ss <- ext (CSplit text (-1)) (sentence_split lib text (-1)) ;
  mapM (λ s, t <- lift (py_get holder "title" (VStr query)) ;
             t <- lift (py_title t) ;
             ret (step t s img)) ss.

Fixpoint section_steps (secs : list value) (query : string) (img : value)
  : M (list (gmap string value)) :=
  match secs with
  | [] => ret []
  | sec :: secs' =>
      text <- lift (py_getitem sec "text") ;
      here <- steps_of sec query text img ;
      rest <- section_steps secs' query img ;
      ret (here ++ rest)
  end.

Definition get_expanded_answer (query : string) (context : option (gmap string value))
  : M (list (gmap string value)) :=
  data <- get_data query context ;
  img <- get_image query context ;
  summary <- lift (py_getitem (VDict data) "summary") ;
  steps <- steps_of (VDict data) query summary img ;
  secs <- lift (py_iter (default (VList []) (data !! "sections"))) ;
  more <- section_steps secs query img ;
  ret (steps ++ more).
End Solver.

(** ** WikipediaSkill *)

(** What the host runtime gives the skill. *)
Record Host : Type := {
  host_lang : string;
  settings : gmap string value;
  can_use_gui : bool;
}.

Inductive utterance : Type :=
| Speak (text : value)
| SpeakDialog (name : string) (data : gmap string value).

Inductive gui_event : Type :=
| ShowAnimatedImage (file : string)
| ShowImage (image title : value)
| Release.

(** The fields of the skill object, and what the host has heard from it:
    the conversational context, the utterances, the GUI requests and the
    error log. *)
Record skill : Type := {
  wiki : solver;
  idx : Z;
  results : option (list (gmap string value));
  image : value;
  current_title : value;
  context : gmap string value;
  spoken : list utterance;
  gui : list gui_event;
  errors : list exn;
}.

Definition with_idx (i : Z) (s : skill) : skill :=
  {| wiki := wiki s; idx := i; results := results s; image := image s;
     current_title := current_title s; context := context s;
     spoken := spoken s; gui := gui s; errors := errors s |}.

Definition with_results (r : option (list (gmap string value))) (s : skill) : skill :=
  {| wiki := wiki s; idx := idx s; results := r; image := image s;
     current_title := current_title s; context := context s;
     spoken := spoken s; gui := gui s; errors := errors s |}.

Definition with_image (v : value) (s : skill) : skill :=
  {| wiki := wiki s; idx := idx s; results := results s; image := v;
     current_title := current_title s; context := context s;
     spoken := spoken s; gui := gui s; errors := errors s |}.

Definition with_current_title (v : value) (s : skill) : skill :=
  {| wiki := wiki s; idx := idx s; results := results s; image := image s;
     current_title := v; context := context s;
     spoken := spoken s; gui := gui s; errors := errors s |}.

Definition with_context (c : gmap string value) (s : skill) : skill :=
  {| wiki := wiki s; idx := idx s; results := results s; image := image s;
     current_title := current_title s; context := c;
     spoken := spoken s; gui := gui s; errors := errors s |}.

Definition with_spoken (u : list utterance) (s : skill) : skill :=
  {| wiki := wiki s; idx := idx s; results := results s; image := image s;
     current_title := current_title s; context := context s;
     spoken := u; gui := gui s; errors := errors s |}.

Definition with_gui (g : list gui_event) (s : skill) : skill :=
  {| wiki := wiki s; idx := idx s; results := results s; image := image s;
     current_title := current_title s; context := context s;
     spoken := spoken s; gui := g; errors := errors s |}.

Definition with_errors (e : list exn) (s : skill) : skill :=
  {| wiki := wiki s; idx := idx s; results := results s; image := image s;
     current_title := current_title s; context := context s;
     spoken := spoken s; gui := gui s; errors := e |}.

(** Handlers run in a state monad over the skill; an exception leaves the
    fields as they were when it was raised. *)
Definition SK (A : Type) : Type := skill → res A * skill.

Definition sk_ret {A} (a : A) : SK A := λ s, (Ok a, s).

Definition sk_bind {A B} (m : SK A) (f : A → SK B) : SK B :=
  λ s, match m s with
       | (Ok a, s') => f a s'
       | (Raise e, s') => (Raise e, s')
       end.

Definition sk_lift {A} (r : res A) : SK A := λ s, (r, s).
Definition sk_get : SK skill := λ s, (Ok s, s).
Definition sk_modify (f : skill → skill) : SK unit := λ s, (Ok tt, f s).

(** A call into the solver: its result or its exception. *)
Definition sk_solver {A} (m : M A) : SK A := sk_lift (outcome m).

Notation "x <~ m ; k" := (sk_bind m (fun x => k))
  (at level 20, m at level 100, k at level 200, only parsing).
Notation "' p <~ m ; k" := (sk_bind m (fun x => let 'p := x in k))
  (at level 20, p pattern, m at level 100, k at level 200, only parsing).

Definition after {A} (m : SK A) (s : skill) : skill := (m s).2.
Definition returned {A} (m : SK A) (s : skill) : res A := (m s).1.

Definition speak (text : value) : SK unit :=
  sk_modify (λ s, with_spoken (spoken s ++ [Speak text]) s).
Definition speak_dialog (name : string) (data : gmap string value) : SK unit :=
  sk_modify (λ s, with_spoken (spoken s ++ [SpeakDialog name data]) s).
Definition set_context (name : string) (v : value) : SK unit :=
  sk_modify (λ s, with_context (<[name := v]> (context s)) s).
Definition remove_context (name : string) : SK unit :=
  sk_modify (λ s, with_context (delete name (context s)) s).
Definition gui_do (e : gui_event) : SK unit :=
  sk_modify (λ s, with_gui (gui s ++ [e]) s).

(** [len(self.results)] *)
Definition py_len (r : option (list (gmap string value))) : res Z :=
  match r with
  | Some l => Ok (Z.of_nat (List.length l))
  | None => Raise TypeError
  end.

(** [self.results[i]] *)
Definition results_index (r : option (list (gmap string value))) (i : Z)
  : res (gmap string value) :=
  match r with
  | Some l => list_index l i
  | None => Raise TypeError
  end.

(** [bool(self.results)] *)
Definition results_truthy (r : option (list (gmap string value))) : bool :=
  match r with
  | Some (_ :: _) => true
  | _ => false
  end.

Definition jumping_gif : string := "ui/jumping.gif".

Inductive CQSMatchLevel : Type := EXACT | CATEGORY | GENERAL.

(** [WikipediaSkill.__init__] *)
Definition WikipediaSkill_init (lib : Library) (host : Host) : skill :=
  let lang := match settings host !! "lang" with
              | Some l => l
              | None => VStr (split_dash_first (host_lang host))
              end in
  {| wiki := WikipediaSolver_init lib (Some (<["lang" := lang]> ∅));
     idx := 0; results := Some []; image := VNone;
     current_title := VNone; context := ∅;
     spoken := []; gui := []; errors := [] |}.

Section Skill.
Variable lib : Library.
Variable host : Host.

Definition display_wiki_entry (title : value) (image_arg : value) : SK unit :=
  if negb (can_use_gui host) then sk_ret tt
  else
    s <~ sk_get ;
    let img := py_or image_arg (image s) in
    if truthy img then gui_do (ShowImage img title) else sk_ret tt.

Definition ask_the_wiki (query : string) : SK (value * value) :=
  _ <~ set_context "WikiKnows" (VStr query) ;
  _ <~ sk_modify (with_idx 0) ;
  _ <~ match long_answer lib query (host_lang host) with
       | Ok r => sk_modify (with_results (Some r))
       | Raise err =>
           _ <~ sk_modify (λ s, with_errors (errors s ++ [err]) s) ;
           sk_modify (with_results None)
       end ;
  s <~ sk_get ;
  img <~ sk_solver (get_image lib (wiki s) query None) ;
  _ <~ sk_modify (with_image img) ;
  if results_truthy (results s) then
    first <~ sk_lift (results_index (results s) 0) ;
    t <~ sk_lift (py_get (VDict first) "title" VNone) ;
    let title := py_or t (VStr query) in
    summary <~ sk_lift (py_getitem (VDict first) "summary") ;
    sk_ret (title, summary)
  else sk_ret (VNone, VNone).

Definition speak_result : SK unit :=
  s <~ sk_get ;
  n <~ sk_lift (py_len (results s)) ;
  if idx s + 1 >? n then
    _ <~ speak_dialog "thats all" ∅ ;
    _ <~ remove_context "WikiKnows" ;
    sk_modify (with_idx 0)
  else
    chunk <~ sk_lift (results_index (results s) (idx s)) ;
    text <~ sk_lift (py_getitem (VDict chunk) "summary") ;
    _ <~ speak text ;
    _ <~ set_context "WikiKnows" (VStr "wikipedia") ;
    title <~ sk_lift (py_get (VDict chunk) "title" (VStr "Wikipedia")) ;
    _ <~ display_wiki_entry title VNone ;
    sk_modify (λ s, with_idx (idx s + 1) s).

Definition handle_search (query : string) : SK unit :=
  _ <~ gui_do (ShowAnimatedImage jumping_gif) ;
  _ <~ sk_modify (with_current_title (VStr query)) ;
  _ <~ speak_dialog "searching" (<["query" := VStr query]> ∅) ;
  _ <~ sk_modify (with_image VNone) ;
  ' (title, summary) <~ ask_the_wiki query ;
  if truthy summary then speak_result
  else speak_dialog "no_answer" ∅.

Definition handle_wiki_roulette_query : SK unit :=
  _ <~ gui_do (ShowAnimatedImage jumping_gif) ;
  _ <~ sk_modify (with_image VNone) ;
  _ <~ sk_modify (with_current_title (VStr "Wiki Roulette")) ;
  speak_dialog "wikiroulette" ∅.

Definition handle_tell_more : SK unit := speak_result.

Definition CQS_match_query_phrase (phrase : string)
  : SK (option (string * CQSMatchLevel * value * gmap string value)) :=
  ' (title, summary) <~ ask_the_wiki phrase ;
  if truthy summary then
    _ <~ sk_modify (λ s, with_idx (idx s + 1) s) ;
    s <~ sk_get ;
    sk_ret (Some (phrase, GENERAL, summary,
                  <["query" := VStr phrase]>
                    (<["image" := image s]>
                       (<["title" := title]> (<["answer" := summary]> ∅)))))
  else sk_ret None.

Definition CQS_action (phrase : string) (data : value) : SK unit :=
  _ <~ display_wiki_entry (VStr "Wikipedia") VNone ;
  t <~ sk_lift (py_get data "title" VNone) ;
  set_context "WikiKnows" (py_or t (VStr phrase)).

Definition stop : SK unit := gui_do Release.

(** The requests the host can send to the skill. *)
Inductive request : Type :=
| ReqSearch (query : string)
| ReqRoulette
| ReqTellMore
| ReqCQSMatch (phrase : string)
| ReqCQSAction (phrase : string) (data : value)
| ReqStop.

Definition handle (r : request) (s : skill) : skill :=
  match r with
  | ReqSearch q => after (handle_search q) s
  | ReqRoulette => after handle_wiki_roulette_query s
  | ReqTellMore => after handle_tell_more s
  | ReqCQSMatch p => after (CQS_match_query_phrase p) s
  | ReqCQSAction p d => after (CQS_action p d) s
  | ReqStop => after stop s
  end.

(** [n] consecutive "tell me more" requests. *)
Fixpoint tell_more_times (n : nat) (s : skill) : skill :=
  match n with
  | O => s
  | S n' => after handle_tell_more (tell_more_times n' s)
  end.
End Skill.

(** States of a conversation: the skill as constructed, then any sequence of
    requests, the libraries and the host answering as they please at each
    one. *)
Inductive reachable : skill → Prop :=
| reachable_init lib host : reachable (WikipediaSkill_init lib host)
| reachable_step lib host r s :
    reachable s → reachable (handle lib host r s).

(** ** A small world to run the model in

    One page ("France"), one attribute answer, a keyword extractor that
    strips the question words, a matcher for templates made of literal text
    and named holes (each hole as long as it can be), a splitter that cuts
    after every full stop and keeps every sentence whatever the limit, and
    title casing of ASCII letters. *)
Module Demo.

Inductive token : Type :=
| Lit (s : string)
| Hole (name : string).

Definition snoc_char (acc : string) (c : ascii) : string :=
  String.append acc (String c EmptyString).

Definition flush (acc : string) : list token :=
  if String.eqb acc "" then [] else [Lit acc].

Fixpoint tokens (s : string) (acc : string) (in_hole : bool) : list token :=
  match s with
  | EmptyString => flush acc
  | String c s' =>
      if in_hole then
        if Ascii.eqb c "}"%char then Hole acc :: tokens s' "" false
        else tokens s' (snoc_char acc c) true
      else
        if Ascii.eqb c "{"%char then flush acc ++ tokens s' "" true
        else tokens s' (snoc_char acc c) false
  end.

Definition drop_string (k : nat) (s : string) : string :=
  String.substring k (String.length s - k) s.

Fixpoint match_tokens (ts : list token) (s : string) : option (gmap string value) :=
  match ts with
  | [] => if String.eqb s "" then Some ∅ else None
  | Lit l :: ts' =>
      if String.prefix l s then match_tokens ts' (drop_string (String.length l) s)
      else None
  | Hole name :: ts' =>
      (fix try (k : nat) : option (gmap string value) :=
         match match_tokens ts' (drop_string k s) with
         | Some m => Some (<[name := VStr (String.substring 0 k s)]> m)
         | None => match k with
                   | O => None
                   | S k' => try k'
                   end
         end) (String.length s)
  end.

Definition template_match (template text : string) : option (gmap string value) :=
  match_tokens (tokens template "" false) text.

Fixpoint split_sentences (s : string) (acc : string) : list string :=
  match s with
  | EmptyString => if String.eqb acc "" then [] else [acc]
  | String c s' =>
      if Ascii.eqb c "."%char then snoc_char acc c :: split_sentences s' ""
      else if Ascii.eqb c " "%char && String.eqb acc "" then split_sentences s' ""
      else split_sentences s' (snoc_char acc c)
  end.

Definition is_lower (c : ascii) : bool :=
  (97 <=? nat_of_ascii c)%nat && (nat_of_ascii c <=? 122)%nat.
Definition is_upper (c : ascii) : bool :=
  (65 <=? nat_of_ascii c)%nat && (nat_of_ascii c <=? 90)%nat.
Definition upper (c : ascii) : ascii :=
  if is_lower c then ascii_of_nat (nat_of_ascii c - 32) else c.
Definition lower (c : ascii) : ascii :=
  if is_upper c then ascii_of_nat (nat_of_ascii c + 32) else c.

Fixpoint title_from (in_word : bool) (s : string) : string :=
  match s with
  | EmptyString => EmptyString
  | String c s' =>
      if is_lower c || is_upper c then
        String (if in_word then lower c else upper c) (title_from true s')
      else String c (title_from false s')
  end.

Definition strip_prefix (p s : string) : option string :=
  if String.prefix p s then Some (drop_string (String.length p) s) else None.

Definition subject_of (q : string) : value :=
  match strip_prefix "who is " q, strip_prefix "what is " q with
  | Some r, _ | None, Some r => VStr r
  | None, None => VStr q
  end.

Definition france : gmap string value :=
  <["title" := VStr "France"]>
    (<["sections" := VList [VDict (<["title" := VStr "history"]>
                                     (<["text" := VStr "S3."]> ∅));
                            VDict (<["title" := VStr "empty"]>
                                     (<["text" := VStr ""]> ∅))]]>
       (<["images" := VList [VStr "france.png"]]> ∅)).

Definition is_france (q : value) : bool :=
  match q with VStr s => String.eqb s "France" | _ => false end.

Definition core : Library :=
  {| wfh_page_data q lang := Ok (if is_france q then VDict france else VNone);
     wfh_tldr q lang := Ok (if is_france q then VStr "S1." else VNone);
     wfh_summary q lang := Ok (if is_france q then VStr "S1. S2." else VStr "");
     wfh_tldr_about sub q lang :=
       Ok (if is_france q then VStr "About 68 million." else VNone);
     wfh_ask_about sub q lang :=
       Ok (if is_france q then VStr "About 68 million. Mostly in towns." else VStr "");
     extract_subject q lang := Ok (subject_of q);
     simplematch_match := template_match;
     sentence_split text n :=
       match text with
       | VStr s => Ok (split_sentences s "")
       | _ => Raise TypeError
       end;
     search q ctx := Ok (if is_france q then VDict france else VDict ∅);
     long_answer q lang := Ok [];
     base_default_lang cfg :=
       match cfg !! "lang" with Some (VStr l) => l | _ => "en" end;
     str_title := title_from false |}.

Definition english : solver := WikipediaSolver_init core None.

(** The base class hands [long_answer] to [get_expanded_answer]. *)
Definition lib : Library :=
  {| wfh_page_data := wfh_page_data core;
     wfh_tldr := wfh_tldr core;
     wfh_summary := wfh_summary core;
     wfh_tldr_about := wfh_tldr_about core;
     wfh_ask_about := wfh_ask_about core;
     extract_subject := extract_subject core;
     simplematch_match := simplematch_match core;
     sentence_split := sentence_split core;
     search := search core;
     long_answer q lang := outcome (get_expanded_answer core english q None);
     base_default_lang := base_default_lang core;
     str_title := str_title core |}.

(** The network is down: every fetch raises, and so does the wrapper
    [long_answer]; the inherited [search] answers with an empty dict when its
    fetch fails. *)
Definition offline : Library :=
  {| wfh_page_data q lang := Raise (LibraryError "no route to host");
     wfh_tldr q lang := Raise (LibraryError "no route to host");
     wfh_summary q lang := Raise (LibraryError "no route to host");
     wfh_tldr_about sub q lang := Raise (LibraryError "no route to host");
     wfh_ask_about sub q lang := Raise (LibraryError "no route to host");
     extract_subject := extract_subject core;
     simplematch_match := simplematch_match core;
     sentence_split := sentence_split core;
     search q ctx := Ok (VDict ∅);
     long_answer q lang := Raise (LibraryError "no route to host");
     base_default_lang := base_default_lang core;
     str_title := str_title core |}.

(** The wrapper of the base class fails, the fetches work. *)
Definition flaky : Library :=
  {| wfh_page_data := wfh_page_data core;
     wfh_tldr := wfh_tldr core;
     wfh_summary := wfh_summary core;
     wfh_tldr_about := wfh_tldr_about core;
     wfh_ask_about := wfh_ask_about core;
     extract_subject := extract_subject core;
     simplematch_match := simplematch_match core;
     sentence_split := sentence_split core;
     search := search core;
     long_answer q lang := Raise (LibraryError "translation failed");
     base_default_lang := base_default_lang core;
     str_title := str_title core |}.

Definition host : Host :=
  {| host_lang := "en-us"; settings := ∅; can_use_gui := true |}.

End Demo.

(** A page one of whose sections has lost its text. *)
Module Damaged.

Definition page : gmap string value :=
  <["sections" := VList [VDict (<["title" := VStr "history"]>
                                  (<["text" := VStr "S3."]> ∅));
                         VDict (<["title" := VStr "notes"]> ∅);
                         VDict (<["title" := VStr "after"]>
                                  (<["text" := VStr "S4."]> ∅))]]> Demo.france.

Definition lib : Library :=
  {| wfh_page_data q lang := Ok (if Demo.is_france q then VDict page else VNone);
     wfh_tldr := wfh_tldr Demo.core;
     wfh_summary := wfh_summary Demo.core;
     wfh_tldr_about := wfh_tldr_about Demo.core;
     wfh_ask_about := wfh_ask_about Demo.core;
     extract_subject := extract_subject Demo.core;
     simplematch_match := simplematch_match Demo.core;
     sentence_split := sentence_split Demo.core;
     search := search Demo.core;
     long_answer := long_answer Demo.core;
     base_default_lang := base_default_lang Demo.core;
     str_title := str_title Demo.core |}.

End Damaged.

(** A world whose splitter keeps the first [n] sentences the way a Python
    slice [[:n]] does: two pages, the summary "S1. S2." with one section "T"
    of text "S3.", and a longer one. *)
Module Sliced.

Definition paris : gmap string value :=
  <["title" := VStr "Paris"]>
    (<["sections" := VList [VDict (<["title" := VStr "T"]>
                                     (<["text" := VStr "S3."]> ∅))]]>
       (<["images" := VList [VStr "paris.png"]]> ∅)).

Definition rome : gmap string value :=
  <["title" := VStr "Rome"]>
    (<["sections" := VList [VDict (<["title" := VStr "history"]>
                                     (<["text" := VStr "R4. R5."]> ∅))]]>
       (<["images" := VList [VStr "rome.png"]]> ∅)).

Definition page_of (q : value) : option (gmap string value) :=
  match q with
  | VStr s => if String.eqb s "Paris" then Some paris
              else if String.eqb s "Rome" then Some rome else None
  | _ => None
  end.

Definition summary_of (q : value) : string :=
  match q with
  | VStr s => if String.eqb s "Paris" then "S1. S2."
              else if String.eqb s "Rome" then "R1. R2. R3." else ""
  | _ => ""
  end.

Definition core : Library :=
  {| wfh_page_data q lang := Ok (match page_of q with Some p => VDict p | None => VNone end);
     wfh_tldr q lang := Ok (VStr (summary_of q));
     wfh_summary q lang := Ok (VStr (summary_of q));
     wfh_tldr_about := wfh_tldr_about Demo.core;
     wfh_ask_about := wfh_ask_about Demo.core;
     extract_subject := extract_subject Demo.core;
     simplematch_match := simplematch_match Demo.core;
     sentence_split text n :=
       match text with
       | VStr s => Ok (py_slice_to (Demo.split_sentences s "") n)
       | _ => Raise TypeError
       end;
     search q ctx := Ok (VDict (default ∅ (page_of q)));
     long_answer q lang := Ok [];
     base_default_lang := base_default_lang Demo.core;
     str_title := str_title Demo.core |}.

Definition english : solver := WikipediaSolver_init core None.

(** The base class hands [long_answer] to [get_expanded_answer]. *)
Definition lib : Library :=
  {| wfh_page_data := wfh_page_data core;
     wfh_tldr := wfh_tldr core;
     wfh_summary := wfh_summary core;
     wfh_tldr_about := wfh_tldr_about core;
     wfh_ask_about := wfh_ask_about core;
     extract_subject := extract_subject core;
     simplematch_match := simplematch_match core;
     sentence_split := sentence_split core;
     search := search core;
     long_answer q lang := outcome (get_expanded_answer core english q None);
     base_default_lang := base_default_lang core;
     str_title := str_title core |}.

End Sliced.

(** ** Vocabulary of the properties *)

(** Every call of the log that takes a language takes [lang]. *)
Definition in_lang (lang : string) (c : call) : Prop :=
  ∀ l, call_lang c = Some l → l = lang.

(** How many times the log enters [get_secondary_search]. *)
Definition secondary_attempts (l : list call) : nat :=
  List.length (List.filter is_secondary l).

(** [sec] is a section dict whose title (the query when it has none) is the
    string [tx.1] and whose text is [tx.2]. *)
Definition section_of (query : string) (sec : value) (tx : string * value) : Prop :=
  ∃ d, sec = VDict d
       ∧ default (VStr query) (d !! "title") = VStr tx.1
       ∧ d !! "text" = Some tx.2.

(** The steps expected for one text: one per sentence, in order, under the
    capitalised title and with the image. *)
Definition tagged (lib : Library) (img : value) (sentences : value → list string)
    (title : string) (text : value) : list (gmap string value) :=
  (λ s, step (VStr (str_title lib title)) s img) <$> sentences text.

(** Two libraries give the same answers: whatever the solver asks while it
    expands an answer, both reply alike. *)
Record same_answers (lib1 lib2 : Library) : Prop := {
  same_page_data q lang : wfh_page_data lib1 q lang = wfh_page_data lib2 q lang;
  same_tldr q lang : wfh_tldr lib1 q lang = wfh_tldr lib2 q lang;
  same_summary q lang : wfh_summary lib1 q lang = wfh_summary lib2 q lang;
  same_tldr_about sub q lang : wfh_tldr_about lib1 sub q lang = wfh_tldr_about lib2 sub q lang;
  same_ask_about sub q lang : wfh_ask_about lib1 sub q lang = wfh_ask_about lib2 sub q lang;
  same_extract q lang : extract_subject lib1 q lang = extract_subject lib2 q lang;
  same_match t q : simplematch_match lib1 t q = simplematch_match lib2 t q;
  same_split text n : sentence_split lib1 text n = sentence_split lib2 text n;
  same_search q ctx : search lib1 q ctx = search lib2 q ctx;
  same_title s : str_title lib1 s = str_title lib2 s;
}.

(** [self.results] after [long_answer] has answered or raised. *)
Definition chunks_of_answer (r : res (list (gmap string value)))
  : option (list (gmap string value)) :=
  match r with
  | Ok l => Some l
  | Raise _ => None
  end.

(** The number of chunks the skill holds ([None] holding none). *)
Definition chunk_count (s : skill) : Z :=
  Z.of_nat (List.length (default [] (results s))).

(** The invariant of the pagination cursor. *)
Definition cursor_ok (s : skill) : Prop := 0 ≤ idx s ≤ chunk_count s.

(** * Properties *)

(** ** The demo world behaves as described *)

Example demo_match :
  Demo.template_match pattern "what is the population of France"
  = Some (<["subquery" := VStr "population"]> (<["query" := VStr "France"]> ∅)).
Proof. vm_compute. reflexivity. Qed.

Example demo_match_greedy :
  Demo.template_match pattern "what is the capital of the state of Texas"
  = Some (<["subquery" := VStr "capital of the state"]> (<["query" := VStr "Texas"]> ∅)).
Proof. vm_compute. reflexivity. Qed.

Example demo_no_match : Demo.template_match pattern "who is Isaac Newton" = None.
Proof. vm_compute. reflexivity. Qed.

Example demo_title : Demo.title_from false "isaac newton's LAWS" = "Isaac Newton'S Laws".
Proof. vm_compute. reflexivity. Qed.

Example demo_split : Demo.split_sentences "S1. S2." "" = ["S1."; "S2."].
Proof. vm_compute. reflexivity. Qed.

(** ** Python values and the two monads *)

Lemma truthy_dict_lookup (d : gmap string value) (k : string) (v : value) :
  d !! k = Some v → truthy (VDict d) = true.
Proof.
  intros Hk. simpl. apply negb_true_iff, Nat.eqb_neq.
  intros Hsize. apply map_size_empty_iff in Hsize. subst d.
  by rewrite lookup_empty in Hk.
Qed.

Lemma truthy_dict_empty : truthy (VDict ∅) = false.
Proof. reflexivity. Qed.

Lemma py_or_truthy (a b : value) : truthy a = true → py_or a b = a.
Proof. unfold py_or. by intros ->. Qed.

Lemma py_or_falsy (a b : value) : truthy a = false → py_or a b = b.
Proof. unfold py_or. by intros ->. Qed.

Lemma outcome_bind {A B} (m : M A) (f : A → M B) :
  outcome (bind m f)
  = match outcome m with Ok a => outcome (f a) | Raise e => Raise e end.
Proof. destruct m as [l [a|e]]; simpl; [|done]. by destruct (f a). Qed.

Lemma trace_bind {A B} (m : M A) (f : A → M B) :
  trace (bind m f)
  = trace m ++ match outcome m with Ok a => trace (f a) | Raise _ => [] end.
Proof.
  destruct m as [l [a|e]]; simpl.
  - by destruct (f a).
  - by rewrite app_nil_r.
Qed.

Lemma outcome_ext {A} (c : call) (r : res A) : outcome (ext c r) = r.
Proof. reflexivity. Qed.

Lemma trace_ext {A} (c : call) (r : res A) : trace (ext c r) = [c].
Proof. reflexivity. Qed.

Lemma outcome_lift {A} (r : res A) : outcome (lift r) = r.
Proof. reflexivity. Qed.

Lemma trace_lift {A} (r : res A) : trace (lift r) = [].
Proof. reflexivity. Qed.

Lemma outcome_ret {A} (a : A) : outcome (ret a) = Ok a.
Proof. reflexivity. Qed.

Lemma trace_ret {A} (a : A) : trace (ret a) = [].
Proof. reflexivity. Qed.

Ltac run :=
  repeat first
    [ rewrite outcome_bind | rewrite trace_bind
    | rewrite outcome_ext | rewrite trace_ext
    | rewrite outcome_lift | rewrite trace_lift
    | rewrite outcome_ret | rewrite trace_ret ].

(** ** Secondary search *)

Lemma secondary_fallback (lib : Library) (query lang : string) :
  outcome (q <- extract_keyword lib query lang ; ret (q, VNone))
  = match extract_subject lib query lang with
    | Ok k => Ok (k, VNone)
    | Raise e => Raise e
    end.
Proof. unfold extract_keyword. run. by destruct (extract_subject lib query lang). Qed.

(** C2. An English query that matches the template "what is the {subquery}
    of {query}" is decomposed: the secondary search returns the captured
    query as the new subject and the captured subquery as the attribute
    qualifier.  For another language, or when the template does not match,
    the result is the output of the keyword extractor with no qualifier: the
    failed match raises nothing by itself. *)
Theorem secondary_search_decomposition (lib : Library) (query : string) :
  (∀ m q sub,
     simplematch_match lib pattern query = Some m →
     m !! "query" = Some q →
     m !! "subquery" = Some sub →
     outcome (get_secondary_search lib query "en") = Ok (q, sub))
  ∧ (∀ lang,
       lang ≠ "en" ∨ simplematch_match lib pattern query = None →
       outcome (get_secondary_search lib query lang)
       = match extract_subject lib query lang with
         | Ok k => Ok (k, VNone)
         | Raise e => Raise e
         end).
Proof.
  split.
  - intros m q sub Hm Hq Hsub. unfold get_secondary_search. run.
    change (String.eqb "en" "en") with true. cbv iota. run.
    rewrite Hm. rewrite (truthy_dict_lookup m "query" q Hq).
    run. unfold py_getitem. by rewrite Hq, Hsub.
  - intros lang Hno. unfold get_secondary_search. run.
    destruct (String.eqb lang "en") eqn:Hlang.
    + apply String.eqb_eq in Hlang. destruct Hno as [Hne | Hnone]; [done|].
      run. rewrite Hnone. apply secondary_fallback.
    + apply secondary_fallback.
Qed.

Lemma secondary_search_decomposition_witness :
  outcome (get_secondary_search Demo.core "what is the population of France" "en")
  = Ok (VStr "France", VStr "population")
  ∧ outcome (get_secondary_search Demo.core "who is Isaac Newton" "en")
    = Ok (VStr "Isaac Newton", VNone)
  ∧ outcome (get_secondary_search Demo.core "what is the population of France" "pt")
    = Ok (VStr "the population of France", VNone).
Proof.
  split; [|split].
  - apply (proj1 (secondary_search_decomposition Demo.core _)
             (<["subquery" := VStr "population"]> (<["query" := VStr "France"]> ∅)));
      vm_compute; reflexivity.
  - rewrite (proj2 (secondary_search_decomposition Demo.core _) "en");
      [reflexivity | right; vm_compute; reflexivity].
  - rewrite (proj2 (secondary_search_decomposition Demo.core _) "pt");
      [reflexivity | left; discriminate].
Defined.

(** ** The language of a request *)

Lemma Forall_trace_bind {A B} (P : call → Prop) (m : M A) (f : A → M B) :
  Forall P (trace m) →
  (∀ a, outcome m = Ok a → Forall P (trace (f a))) →
  Forall P (trace (bind m f)).
Proof.
  intros Hm Hf. rewrite trace_bind. apply Forall_app. split; [done|].
  destruct (outcome m) as [a|e]; [by apply Hf | constructor].
Qed.

Lemma in_lang_ext {A} (lang : string) (c : call) (r : res A) :
  in_lang lang c → Forall (in_lang lang) (trace (ext c r)).
Proof. intros Hc. rewrite trace_ext. by repeat constructor. Qed.

Lemma in_lang_lift {A} (lang : string) (r : res A) :
  Forall (in_lang lang) (trace (lift r)).
Proof. constructor. Qed.

Lemma in_lang_same (lang : string) (c : call) :
  call_lang c = Some lang → in_lang lang c.
Proof. intros Hc l Hl. congruence. Qed.

Lemma in_lang_none (lang : string) (c : call) :
  call_lang c = None → in_lang lang c.
Proof. intros Hc l Hl. congruence. Qed.

Lemma fetch_plain_in_lang (lib : Library) (q : value) (lang : string) :
  Forall (in_lang lang) (trace (fetch_plain lib q lang)).
Proof.
  unfold fetch_plain.
  apply Forall_trace_bind; [by apply in_lang_ext, in_lang_same | intros sa _].
  apply Forall_trace_bind; [by apply in_lang_ext, in_lang_same | intros su _].
  constructor.
Qed.

Lemma fetch_about_in_lang (lib : Library) (sub q : value) (lang : string) :
  Forall (in_lang lang) (trace (fetch_about lib sub q lang)).
Proof.
  unfold fetch_about.
  apply Forall_trace_bind; [by apply in_lang_ext, in_lang_same | intros sa _].
  apply Forall_trace_bind; [by apply in_lang_ext, in_lang_same | intros su _].
  constructor.
Qed.

Lemma extract_keyword_in_lang (lib : Library) (query lang : string) :
  Forall (in_lang lang) (trace (extract_keyword lib query lang)).
Proof. by apply in_lang_ext, in_lang_same. Qed.

Lemma secondary_search_in_lang (lib : Library) (query lang : string) :
  Forall (in_lang lang) (trace (get_secondary_search lib query lang)).
Proof.
  assert (Hfall : Forall (in_lang lang)
            (trace (q <- extract_keyword lib query lang ; ret (q, VNone)))).
  { apply Forall_trace_bind; [apply extract_keyword_in_lang | intros; constructor]. }
  unfold get_secondary_search.
  apply Forall_trace_bind; [by apply in_lang_ext, in_lang_same | intros _ _].
  destruct (String.eqb lang "en"); [|done].
  apply Forall_trace_bind; [by apply in_lang_ext, in_lang_none | intros m _].
  destruct m as [d|]; [|done].
  destruct (truthy (VDict d)); [|done].
  apply Forall_trace_bind; [apply in_lang_lift | intros q _].
  apply Forall_trace_bind; [apply in_lang_lift | intros sub _].
  constructor.
Qed.

Lemma get_data_in_lang (lib : Library) (self : solver) (query : string)
    (context : option (gmap string value)) (lang : string) :
  outcome (request_lang self (context_or_empty context)) = Ok lang →
  Forall (in_lang lang) (trace (get_data lib self query context)).
Proof.
  intros Hlang. unfold get_data.
  apply Forall_trace_bind; [apply in_lang_lift | intros lang' Hlang'].
  assert (lang' = lang) as -> by congruence.
  apply Forall_trace_bind; [by apply in_lang_ext, in_lang_same | intros pd _].
  apply Forall_trace_bind; [apply fetch_plain_in_lang | intros data _].
  apply Forall_trace_bind; [|intros [q' data'] _].
  - destruct (negb (truthy (py_or pd (VDict ∅)))); [|constructor].
    apply Forall_trace_bind; [apply secondary_search_in_lang | intros [q sub] _].
    destruct (truthy sub).
    + apply Forall_trace_bind; [apply fetch_about_in_lang | intros; constructor].
    + apply Forall_trace_bind; [apply fetch_plain_in_lang | intros; constructor].
  - apply Forall_trace_bind; [apply in_lang_lift | intros; constructor].
Qed.

Lemma extract_and_search_in_lang (lib : Library) (self : solver) (query : string)
    (context : option (gmap string value)) (lang : string) :
  outcome (request_lang self (context_or_empty context)) = Ok lang →
  Forall (in_lang lang) (trace (extract_and_search lib self query context)).
Proof.
  intros Hlang. unfold extract_and_search.
  apply Forall_trace_bind; [apply in_lang_lift | intros lang' Hlang'].
  assert (lang' = lang) as -> by congruence.
  apply Forall_trace_bind; [apply extract_keyword_in_lang | intros k _].
  destruct (negb (truthy k)); [constructor|].
  by apply in_lang_ext, in_lang_none.
Qed.

Lemma request_lang_override (self : solver) (context : gmap string value) (o : string) :
  context !! "lang" = Some (VStr o) → o ≠ "" →
  outcome (request_lang self context) = Ok (split_dash_first o).
Proof.
  intros Hctx Hne. unfold request_lang. rewrite Hctx. simpl.
  rewrite py_or_truthy; [done|]. simpl.
  apply negb_true_iff. by apply String.eqb_neq.
Qed.

Lemma request_lang_default (self : solver) (context : gmap string value) :
  truthy (default VNone (context !! "lang")) = false →
  outcome (request_lang self context) = Ok (split_dash_first (default_lang self)).
Proof. intros Hctx. unfold request_lang. by rewrite py_or_falsy. Qed.

Example split_dash_first_pt_BR : split_dash_first "pt-BR" = "pt".
Proof. reflexivity. Qed.

Lemma split_dash_first_prefix (s : string) :
  ∃ rest, s = String.append (split_dash_first s) rest
          ∧ (rest = "" ∨ String.prefix "-" rest = true).
Proof.
  induction s as [|c s [rest [Hs Hrest]]]; simpl.
  - exists "". by split; [|left].
  - destruct (Ascii.eqb c "-") eqn:Hc.
    + apply Ascii.eqb_eq in Hc. subst c. exists (String "-" s). split; [done|].
      right. simpl. by destruct s.
    + exists rest. split; [|done]. exact (f_equal (String c) Hs).
Qed.

Lemma split_dash_first_no_dash (s : string) :
  Forall (λ c, c ≠ "-"%char) (list_ascii_of_string (split_dash_first s)).
Proof.
  induction s as [|c s IH]; simpl; [constructor|].
  destruct (Ascii.eqb c "-") eqn:Hc; simpl; [constructor|].
  constructor; [|done]. by apply Ascii.eqb_neq.
Qed.

(** C8, as amended.  The language of every fetch made by [get_data], and of
    the keyword extraction made by [extract_and_search], is the override
    carried by the context when it is a non-empty string, and the default
    language of the solver when the context carries no override or a falsy
    one; in both cases cut before the first ["-"]. *)
Theorem language_threading (lib : Library) (self : solver) (query : string)
    (context : option (gmap string value)) (lang : string) :
  (∃ o, context_or_empty context !! "lang" = Some (VStr o) ∧ o ≠ ""
        ∧ lang = split_dash_first o)
  ∨ (truthy (default VNone (context_or_empty context !! "lang")) = false
     ∧ lang = split_dash_first (default_lang self)) →
  Forall (in_lang lang) (trace (get_data lib self query context))
  ∧ Forall (in_lang lang) (trace (extract_and_search lib self query context)).
Proof.
  intros Hlang.
  assert (outcome (request_lang self (context_or_empty context)) = Ok lang) as Hreq.
  { destruct Hlang as [(o & Hctx & Hne & ->) | [Hctx ->]].
    - by apply request_lang_override.
    - by apply request_lang_default. }
  split; [by apply get_data_in_lang | by apply extract_and_search_in_lang].
Qed.

Lemma language_threading_witness :
  Forall (in_lang "pt")
    (trace (get_data Demo.core Demo.english "Quem é Isaac Newton"
              (Some (<["lang" := VStr "pt-BR"]> ∅))))
  ∧ Forall (in_lang "en") (trace (extract_and_search Demo.core Demo.english "France" None)).
Proof.
  split.
  - apply (language_threading Demo.core Demo.english _
             (Some (<["lang" := VStr "pt-BR"]> ∅)) "pt").
    left. exists "pt-BR". split; [vm_compute; reflexivity|]. split; [discriminate|reflexivity].
  - apply (language_threading Demo.core Demo.english "France" None "en").
    right. split; vm_compute; reflexivity.
Defined.

(** C8 as stated fails on an override that is present but empty: the fetches
    are made in the default language, not in the (empty) override. *)
Lemma language_threading_counterexample :
  let context : gmap string value := <["lang" := VStr ""]> ∅ in
  context !! "lang" = Some (VStr "")
  ∧ ¬ Forall (in_lang (split_dash_first ""))
        (trace (get_data Demo.core Demo.english "France" (Some context))).
Proof.
  split; [vm_compute; reflexivity|].
  intros Hall. apply Forall_inv in Hall.
  specialize (Hall "en" eq_refl). discriminate Hall.
Qed.

(** ** Resolution: the secondary attempt and the title *)

Lemma secondary_attempts_app (l1 l2 : list call) :
  secondary_attempts (l1 ++ l2) = (secondary_attempts l1 + secondary_attempts l2)%nat.
Proof. unfold secondary_attempts. by rewrite List.filter_app, length_app. Qed.

Lemma fetch_plain_inv (lib : Library) (q : value) (lang : string) (a : gmap string value) :
  outcome (fetch_plain lib q lang) = Ok a →
  ∃ sa su, wfh_tldr lib q lang = Ok sa ∧ wfh_summary lib q lang = Ok su
           ∧ a = <["short_answer" := sa]> (<["summary" := su]> ∅).
Proof.
  unfold fetch_plain. run.
  destruct (wfh_tldr lib q lang) as [sa|]; [|done]. run.
  destruct (wfh_summary lib q lang) as [su|]; [|done]. run.
  intros [= <-]. by exists sa, su.
Qed.

Lemma fetch_about_inv (lib : Library) (sub q : value) (lang : string) (a : gmap string value) :
  outcome (fetch_about lib sub q lang) = Ok a →
  ∃ sa su, wfh_tldr_about lib sub q lang = Ok sa ∧ wfh_ask_about lib sub q lang = Ok su
           ∧ a = <["short_answer" := sa]> (<["summary" := su]> ∅).
Proof.
  unfold fetch_about. run.
  destruct (wfh_tldr_about lib sub q lang) as [sa|]; [|done]. run.
  destruct (wfh_ask_about lib sub q lang) as [su|]; [|done]. run.
  intros [= <-]. by exists sa, su.
Qed.

Lemma fetch_plain_attempts (lib : Library) (q : value) (lang : string) :
  secondary_attempts (trace (fetch_plain lib q lang)) = 0%nat.
Proof.
  unfold fetch_plain. run.
  destruct (wfh_tldr lib q lang); [|done]. run.
  by destruct (wfh_summary lib q lang).
Qed.

Lemma fetch_about_attempts (lib : Library) (sub q : value) (lang : string) :
  secondary_attempts (trace (fetch_about lib sub q lang)) = 0%nat.
Proof.
  unfold fetch_about. run.
  destruct (wfh_tldr_about lib sub q lang); [|done]. run.
  by destruct (wfh_ask_about lib sub q lang).
Qed.

Lemma secondary_search_attempts (lib : Library) (query lang : string) :
  secondary_attempts (trace (get_secondary_search lib query lang)) = 1%nat.
Proof.
  assert (Hfall : secondary_attempts
            (trace (q <- extract_keyword lib query lang ; ret (q, VNone))) = 0%nat).
  { unfold extract_keyword. run. by destruct (extract_subject lib query lang). }
  unfold get_secondary_search. run. rewrite secondary_attempts_app.
  destruct (String.eqb lang "en"); [|by rewrite Hfall].
  run. rewrite secondary_attempts_app.
  destruct (simplematch_match lib pattern query) as [m|]; [|by rewrite Hfall].
  destruct (truthy (VDict m)); [|by rewrite Hfall].
  run. destruct (py_getitem (VDict m) "query"); [|done]. run.
  by destruct (py_getitem (VDict m) "subquery").
Qed.

Lemma truthy_or_empty (pd : value) : truthy (py_or pd (VDict ∅)) = truthy pd.
Proof. unfold py_or. by destruct (truthy pd) eqn:H. Qed.

Lemma answers_no_title (sa su : value) (page : gmap string value) :
  (<["short_answer" := sa]> (<["summary" := su]> ∅) ∪ page) !! "title" = page !! "title".
Proof.
  rewrite lookup_union_r; [done|].
  by rewrite !lookup_insert_ne, lookup_empty.
Qed.

Lemma bind_Ok_inv {A B} (m : M A) (f : A → M B) (b : B) :
  outcome (bind m f) = Ok b → ∃ a, outcome m = Ok a ∧ outcome (f a) = Ok b.
Proof.
  rewrite outcome_bind. destruct (outcome m) as [a|]; [|done]. intros H. by exists a.
Qed.

Lemma trace_bind_Ok {A B} (m : M A) (f : A → M B) (a : A) :
  outcome m = Ok a → trace (bind m f) = trace m ++ trace (f a).
Proof. intros H. by rewrite trace_bind, H. Qed.

(** C3, as amended.  When [get_data] returns, its log enters the secondary
    search exactly once if the page data fetched for the query was empty, and
    never otherwise.  The title of the result is the title of the page when
    it has one; failing that, it is the text of the query when page data was
    found, and the subject chosen by the secondary search when it was not. *)
Theorem resolve_secondary_attempt (lib : Library) (self : solver) (query : string)
    (context : option (gmap string value)) (lang : string) (pd : value)
    (d : gmap string value) :
  outcome (request_lang self (context_or_empty context)) = Ok lang →
  wfh_page_data lib (VStr query) lang = Ok pd →
  outcome (get_data lib self query context) = Ok d →
  secondary_attempts (trace (get_data lib self query context))
  = (if truthy pd then 0 else 1)%nat
  ∧ (truthy pd = true →
     ∃ page, pd = VDict page
             ∧ d !! "title" = Some (py_or (default VNone (page !! "title")) (VStr query)))
  ∧ (truthy pd = false →
     ∃ subject sub, outcome (get_secondary_search lib query lang) = Ok (subject, sub)
                    ∧ d !! "title" = Some subject).
Proof.
  intros Hlang Hpd Hd. unfold get_data in *.
  apply bind_Ok_inv in Hd as (lang' & Hlang' & Hd).
  assert (lang' = lang) as -> by congruence.
  rewrite (trace_bind_Ok _ _ _ Hlang), secondary_attempts_app.
  apply bind_Ok_inv in Hd as (pd' & Hpd' & Hd).
  rewrite outcome_ext, Hpd in Hpd'. injection Hpd' as <-.
  rewrite Hpd, (trace_bind_Ok _ _ pd (outcome_ext _ _)), secondary_attempts_app.
  apply bind_Ok_inv in Hd as (a & Ha & Hd).
  rewrite (trace_bind_Ok _ _ _ Ha), secondary_attempts_app, fetch_plain_attempts.
  apply fetch_plain_inv in Ha as (sa & su & _ & _ & ->).
  apply bind_Ok_inv in Hd as ([query' data] & Hbranch & Hd).
  rewrite (trace_bind_Ok _ _ _ Hbranch), secondary_attempts_app.
  apply bind_Ok_inv in Hd as (page_data & Hupdate & Hd).
  rewrite (trace_bind_Ok _ _ _ Hupdate), secondary_attempts_app.
  rewrite outcome_ret in Hd. injection Hd as <-. rewrite lookup_insert_eq.
  rewrite outcome_lift in Hupdate.
  rewrite truthy_or_empty in Hbranch |- *.
  destruct (truthy pd) eqn:Htruthy; simpl negb in *; cbv iota in *.
  - rewrite (py_or_truthy pd _ Htruthy) in Hupdate.
    rewrite outcome_ret in Hbranch. injection Hbranch as <- <-.
    split; [done|]. split; [|done]. intros _.
    destruct pd as [| | |page]; try done. injection Hupdate as <-.
    exists page. split; [done|]. by rewrite answers_no_title.
  - rewrite (py_or_falsy pd _ Htruthy) in Hupdate. injection Hupdate as <-.
    apply bind_Ok_inv in Hbranch as ([q sub] & Hsec & Hfetch).
    rewrite (trace_bind_Ok _ _ _ Hsec), secondary_attempts_app, secondary_search_attempts.
    assert (query' = q
            ∧ secondary_attempts
                (trace (if truthy sub
                        then bind (fetch_about lib sub q lang) (λ data, ret (q, data))
                        else bind (fetch_plain lib q lang) (λ data, ret (q, data)))) = 0%nat
            ∧ ∃ sa' su', data = <["short_answer" := sa']> (<["summary" := su']> ∅))
      as (-> & Hnone & sa' & su' & ->).
    { destruct (truthy sub).
      - apply bind_Ok_inv in Hfetch as (data' & Hdata & Hret).
        rewrite (trace_bind_Ok _ _ _ Hdata), secondary_attempts_app, fetch_about_attempts.
        injection Hret as <- <-. split; [done|]. split; [done|].
        apply fetch_about_inv in Hdata as (sa' & su' & _ & _ & ->). eauto.
      - apply bind_Ok_inv in Hfetch as (data' & Hdata & Hret).
        rewrite (trace_bind_Ok _ _ _ Hdata), secondary_attempts_app, fetch_plain_attempts.
        injection Hret as <- <-. split; [done|]. split; [done|].
        apply fetch_plain_inv in Hdata as (sa' & su' & _ & _ & ->). eauto. }
    rewrite Hnone. split; [done|]. split; [done|]. intros _.
    exists q, sub. split; [done|]. by rewrite answers_no_title, lookup_empty.
Qed.

Lemma resolve_secondary_attempt_witness :
  secondary_attempts
    (trace (get_data Demo.core Demo.english "what is the population of France" None))
  = 1%nat
  ∧ secondary_attempts (trace (get_data Demo.core Demo.english "France" None)) = 0%nat.
Proof.
  split.
  - refine (proj1 (resolve_secondary_attempt Demo.core Demo.english
                     "what is the population of France" None "en" VNone
                     (<["title" := VStr "France"]>
                        (<["short_answer" := VStr "About 68 million."]>
                           (<["summary" := VStr "About 68 million. Mostly in towns."]> ∅)))
                     _ _ _)); vm_compute; reflexivity.
  - refine (proj1 (resolve_secondary_attempt Demo.core Demo.english
                     "France" None "en" (VDict Demo.france)
                     (<["title" := VStr "France"]>
                        (<["short_answer" := VStr "S1."]>
                           (<["summary" := VStr "S1. S2."]> Demo.france)))
                     _ _ _)); vm_compute; reflexivity.
Defined.

(** C3 as stated fails on the title: no page is found for the query below,
    so the page data carries no title, yet the title of the result is the
    subject of the secondary search and not the text of the query. *)
Lemma resolve_title_counterexample :
  let query := "what is the population of France" in
  wfh_page_data Demo.core (VStr query) "en" = Ok VNone
  ∧ ∃ d, outcome (get_data Demo.core Demo.english query None) = Ok d
         ∧ d !! "title" = Some (VStr "France")
         ∧ d !! "title" ≠ Some (VStr query).
Proof.
  split; [reflexivity|].
  eexists. split; [vm_compute; reflexivity|].
  split; [vm_compute; reflexivity|].
  vm_compute. discriminate.
Qed.

(** ** Nothing found *)

Lemma outcome_bind_Ok {A B} (m : M A) (f : A → M B) (a : A) :
  outcome m = Ok a → outcome (bind m f) = outcome (f a).
Proof. intros H. by rewrite outcome_bind, H. Qed.

Lemma fetch_plain_Ok (lib : Library) (q : value) (lang : string) (sa su : value) :
  wfh_tldr lib q lang = Ok sa → wfh_summary lib q lang = Ok su →
  outcome (fetch_plain lib q lang) = Ok (<["short_answer" := sa]> (<["summary" := su]> ∅)).
Proof. intros Hsa Hsu. unfold fetch_plain. run. rewrite Hsa. run. by rewrite Hsu. Qed.

Lemma fetch_about_Ok (lib : Library) (sub q : value) (lang : string) (sa su : value) :
  wfh_tldr_about lib sub q lang = Ok sa → wfh_ask_about lib sub q lang = Ok su →
  outcome (fetch_about lib sub q lang) = Ok (<["short_answer" := sa]> (<["summary" := su]> ∅)).
Proof. intros Hsa Hsu. unfold fetch_about. run. rewrite Hsa. run. by rewrite Hsu. Qed.

Lemma extract_and_search_no_subject (lib : Library) (self : solver) (query : string)
    (context : option (gmap string value)) (lang : string) (k : value) :
  outcome (request_lang self (context_or_empty context)) = Ok lang →
  extract_subject lib query lang = Ok k → truthy k = false →
  outcome (extract_and_search lib self query context) = Ok (VDict ∅).
Proof.
  intros Hlang Hk Hfalsy. unfold extract_and_search.
  rewrite (outcome_bind_Ok _ _ _ Hlang).
  unfold extract_keyword. rewrite (outcome_bind_Ok _ _ k); [|by rewrite outcome_ext].
  by rewrite Hfalsy.
Qed.

(** C5.  Not finding anything is a value, not an exception.  When the
    keyword extractor yields no subject, [extract_and_search] returns the
    empty dict without searching, so the spoken answer is the empty string
    and the image is [None].  When no page is found for the query and the
    fetches made for the subject of the secondary search come back empty,
    [get_data] returns a result in which every field is empty, the title
    apart, which is that subject. *)
Theorem not_found_is_a_value (lib : Library) (self : solver) (query : string)
    (context : option (gmap string value)) (lang : string) :
  outcome (request_lang self (context_or_empty context)) = Ok lang →
  (∀ k, extract_subject lib query lang = Ok k → truthy k = false →
        outcome (extract_and_search lib self query context) = Ok (VDict ∅)
        ∧ outcome (get_spoken_answer lib self query context) = Ok (VStr "")
        ∧ outcome (get_image lib self query context) = Ok VNone)
  ∧ (∀ pd sa su subject sub sa' su',
       wfh_page_data lib (VStr query) lang = Ok pd → truthy pd = false →
       wfh_tldr lib (VStr query) lang = Ok sa →
       wfh_summary lib (VStr query) lang = Ok su →
       outcome (get_secondary_search lib query lang) = Ok (subject, sub) →
       (if truthy sub
        then wfh_tldr_about lib sub subject lang = Ok sa'
             ∧ wfh_ask_about lib sub subject lang = Ok su'
        else wfh_tldr lib subject lang = Ok sa'
             ∧ wfh_summary lib subject lang = Ok su') →
       truthy sa' = false → truthy su' = false →
       ∃ d, outcome (get_data lib self query context) = Ok d
            ∧ d !! "title" = Some subject
            ∧ ∀ key v, d !! key = Some v →
                       truthy v = false ∨ (key = "title" ∧ v = subject)).
Proof.
  intros Hlang. split.
  - intros k Hk Hfalsy.
    pose proof (extract_and_search_no_subject _ _ _ _ _ _ Hlang Hk Hfalsy) as Hsearch.
    split; [done|]. split.
    + unfold get_spoken_answer. by rewrite (outcome_bind_Ok _ _ _ Hsearch).
    + unfold get_image. by rewrite (outcome_bind_Ok _ _ _ Hsearch).
  - intros pd sa su subject sub sa' su' Hpd Hfalsy Hsa Hsu Hsec Hfetch Hsa' Hsu'.
    exists (<["title" := subject]> (<["short_answer" := sa']> (<["summary" := su']> ∅))).
    split; [|split].
    + unfold get_data. rewrite (outcome_bind_Ok _ _ _ Hlang).
      rewrite (outcome_bind_Ok _ _ pd); [|by rewrite outcome_ext].
      rewrite (outcome_bind_Ok _ _ _ (fetch_plain_Ok _ _ _ _ _ Hsa Hsu)).
      rewrite truthy_or_empty, Hfalsy. simpl negb. cbv iota.
      rewrite (py_or_falsy pd _ Hfalsy).
      rewrite (outcome_bind_Ok _ _
                 (subject, <["short_answer" := sa']> (<["summary" := su']> ∅))).
      * run. simpl. rewrite (right_id_L ∅ (∪)).
        by rewrite !lookup_insert_ne, lookup_empty.
      * rewrite (outcome_bind_Ok _ _ _ Hsec). destruct (truthy sub).
        -- destruct Hfetch as [H1 H2].
           by rewrite (outcome_bind_Ok _ _ _ (fetch_about_Ok _ _ _ _ _ _ H1 H2)).
        -- destruct Hfetch as [H1 H2].
           by rewrite (outcome_bind_Ok _ _ _ (fetch_plain_Ok _ _ _ _ _ H1 H2)).
    + by rewrite lookup_insert_eq.
    + intros key v Hkey.
      destruct (decide (key = "title")) as [->|Hne].
      * rewrite lookup_insert_eq in Hkey. injection Hkey as <-. by right.
      * left. rewrite lookup_insert_ne in Hkey by done.
        destruct (decide (key = "short_answer")) as [->|Hne2].
        -- rewrite lookup_insert_eq in Hkey. by injection Hkey as <-.
        -- rewrite lookup_insert_ne in Hkey by done.
           destruct (decide (key = "summary")) as [->|Hne3].
           ++ rewrite lookup_insert_eq in Hkey. by injection Hkey as <-.
           ++ by rewrite lookup_insert_ne, lookup_empty in Hkey.
Qed.

Lemma not_found_is_a_value_witness :
  outcome (extract_and_search Demo.core Demo.english "" None) = Ok (VDict ∅)
  ∧ ∃ d, outcome (get_data Demo.core Demo.english "who is Nobody" None) = Ok d
         ∧ d !! "title" = Some (VStr "Nobody").
Proof.
  split.
  - refine (proj1 (proj1 (not_found_is_a_value Demo.core Demo.english "" None "en" _)
                     (VStr "") _ _)); vm_compute; reflexivity.
  - destruct (proj2 (not_found_is_a_value Demo.core Demo.english "who is Nobody" None "en"
                       ltac:(vm_compute; reflexivity))
                VNone VNone (VStr "") (VStr "Nobody") VNone VNone (VStr "")
                ltac:(vm_compute; reflexivity) ltac:(vm_compute; reflexivity)
                ltac:(vm_compute; reflexivity) ltac:(vm_compute; reflexivity)
                ltac:(vm_compute; reflexivity)
                ltac:(split; vm_compute; reflexivity)
                ltac:(vm_compute; reflexivity) ltac:(vm_compute; reflexivity))
      as (d & Hd & Htitle & _).
    by exists d.
Defined.

(** ** Expansion of an answer into steps *)

Lemma mapM_steps (lib : Library) (holder : value) (query t : string) (img : value)
    (ss : list string) :
  py_get holder "title" (VStr query) = Ok (VStr t) →
  outcome (mapM (λ s, t <- lift (py_get holder "title" (VStr query)) ;
                      t <- lift (py_title lib t) ;
                      ret (step t s img)) ss)
  = Ok ((λ s, step (VStr (str_title lib t)) s img) <$> ss).
Proof.
  intros Hget. induction ss as [|s ss IH]; [done|].
  cbn [mapM]. rewrite (outcome_bind_Ok _ _ (step (VStr (str_title lib t)) s img)).
  - by rewrite (outcome_bind_Ok _ _ _ IH).
  - by rewrite (outcome_bind_Ok _ _ (VStr t)).
Qed.

Lemma steps_of_Ok (lib : Library) (holder : value) (query t : string) (text img : value)
    (ss : list string) :
  py_get holder "title" (VStr query) = Ok (VStr t) →
  sentence_split lib text (-1) = Ok ss →
  outcome (steps_of lib holder query text img)
  = Ok ((λ s, step (VStr (str_title lib t)) s img) <$> ss).
Proof.
  intros Hget Hsplit. unfold steps_of.
  rewrite (outcome_bind_Ok _ _ ss); [|by rewrite outcome_ext].
  by apply mapM_steps.
Qed.

Lemma section_steps_Ok (lib : Library) (query : string) (img : value)
    (sentences : value → list string) (secs : list value) (views : list (string * value)) :
  Forall2 (section_of query) secs views →
  (∀ tx, tx ∈ views → sentence_split lib tx.2 (-1) = Ok (sentences tx.2)) →
  outcome (section_steps lib secs query img)
  = Ok (flat_map (λ tx, tagged lib img sentences tx.1 tx.2) views).
Proof.
  intros Hviews. induction Hviews as [|sec tx secs views (d & -> & Htitle & Htext) _ IH];
    intros Hsplit; [done|].
  cbn [section_steps flat_map].
  rewrite (outcome_bind_Ok _ _ tx.2); [|by rewrite outcome_lift; simpl; rewrite Htext].
  rewrite (outcome_bind_Ok _ _ (tagged lib img sentences tx.1 tx.2)).
  - rewrite (outcome_bind_Ok _ _ (flat_map (λ tx, tagged lib img sentences tx.1 tx.2) views)).
    + done.
    + apply IH. intros tx' Hin. apply Hsplit. by right.
  - apply steps_of_Ok; [by simpl; rewrite Htitle|]. apply Hsplit. by left.
Qed.

Lemma py_slice_to_last {A} (l : list A) :
  py_slice_to l (-1) = take (List.length l - 1) l.
Proof.
  unfold py_slice_to. change (-1 <? 0) with true. cbv iota zeta.
  f_equal. lia.
Qed.

(** C4, where the code departs from it.  [get_expanded_answer] asks the
    inherited splitter for the sentences of the summary and of each section
    with the limit -1.  The splitter cutting its list of sentences as the
    slice [[:n]] does, the limit -1 takes the last sentence of every text
    away: the steps returned are, for the summary and then for each section
    in order, one step per sentence but the last, in the order of the
    sentences, under the capitalised title of the data or of the section
    (the query when it has none) and with the one image. *)
Theorem paginate_order_and_tags (lib : Library) (self : solver) (query : string)
    (context : option (gmap string value)) (data : gmap string value) (img : value)
    (t : string) (summary : value) (secs : list value) (views : list (string * value))
    (sentences : value → list string) :
  outcome (get_data lib self query context) = Ok data →
  outcome (get_image lib self query context) = Ok img →
  data !! "title" = Some (VStr t) →
  data !! "summary" = Some summary →
  default (VList []) (data !! "sections") = VList secs →
  Forall2 (section_of query) secs views →
  sentence_split lib summary (-1) = Ok (py_slice_to (sentences summary) (-1)) →
  (∀ tx, tx ∈ views →
         sentence_split lib tx.2 (-1) = Ok (py_slice_to (sentences tx.2) (-1))) →
  let chunk (title : string) (s : string) : gmap string value :=
    <["title" := VStr (str_title lib title)]>
      (<["summary" := VStr s]> (<["img" := img]> ∅)) in
  let kept (text : value) : list string :=
    take (List.length (sentences text) - 1) (sentences text) in
  outcome (get_expanded_answer lib self query context)
  = Ok ((chunk t <$> kept summary) ++ flat_map (λ tx, chunk tx.1 <$> kept tx.2) views).
Proof.
  intros Hdata Himg Htitle Hsummary Hsecs Hviews Hsplit Hsplits chunk kept.
  pose (cut := λ text : value, py_slice_to (sentences text) (-1)).
  assert (∀ title text, tagged lib img cut title text = chunk title <$> kept text) as Htag.
  { intros title text. unfold tagged, cut, kept. by rewrite py_slice_to_last. }
  unfold get_expanded_answer.
  rewrite (outcome_bind_Ok _ _ _ Hdata), (outcome_bind_Ok _ _ _ Himg).
  rewrite (outcome_bind_Ok _ _ summary); [|by rewrite outcome_lift; simpl; rewrite Hsummary].
  rewrite (outcome_bind_Ok _ _ (tagged lib img cut t summary));
    [|by apply steps_of_Ok; [simpl; rewrite Htitle|]].
  rewrite Hsecs.
  rewrite (outcome_bind_Ok _ _ secs); [|done].
  rewrite (outcome_bind_Ok _ _ _ (section_steps_Ok _ _ _ cut _ _ Hviews Hsplits)).
  rewrite outcome_ret, Htag. do 2 f_equal.
  clear -Htag. induction views as [|tx views IH]; [done|]. simpl. by rewrite Htag, IH.
Qed.

Lemma paginate_order_and_tags_witness :
  outcome (get_expanded_answer Sliced.core Sliced.english "Paris" None)
  = Ok [<["title" := VStr "Paris"]>
          (<["summary" := VStr "S1."]> (<["img" := VStr "paris.png"]> ∅))].
Proof.
  pose (sentences := λ v : value,
          match v with VStr s => Demo.split_sentences s "" | _ => [] end).
  refine (paginate_order_and_tags Sliced.core Sliced.english "Paris" None
            (<["title" := VStr "Paris"]>
               (<["short_answer" := VStr "S1. S2."]>
                  (<["summary" := VStr "S1. S2."]> Sliced.paris)))
            (VStr "paris.png") "Paris" (VStr "S1. S2.")
            [VDict (<["title" := VStr "T"]> (<["text" := VStr "S3."]> ∅))]
            [("T", VStr "S3.")]
            sentences _ _ _ _ _ _ _ _).
  - vm_compute; reflexivity.
  - vm_compute; reflexivity.
  - vm_compute; reflexivity.
  - vm_compute; reflexivity.
  - vm_compute; reflexivity.
  - repeat constructor; eexists; (split; [reflexivity|]); split; vm_compute; reflexivity.
  - reflexivity.
  - intros tx Hin. apply list_elem_of_In in Hin.
    destruct Hin as [<-|[]]; reflexivity.
Defined.

(** ** Resolution is a function of the fetched data *)

Lemma bind_ext {A B} (m : M A) (f g : A → M B) :
  (∀ a, f a = g a) → bind m f = bind m g.
Proof. intros H. destruct m as [l [a|e]]; simpl; [by rewrite H|done]. Qed.

Lemma mapM_ext {A B} (f g : A → M B) (l : list A) :
  (∀ a, f a = g a) → mapM f l = mapM g l.
Proof. intros H. induction l as [|x l IH]; [done|]. simpl. by rewrite H, IH. Qed.

Section Same.
Variables lib1 lib2 : Library.
Hypothesis Hsame : same_answers lib1 lib2.
Variable self : solver.

Lemma extract_keyword_same query lang :
  extract_keyword lib1 query lang = extract_keyword lib2 query lang.
Proof. unfold extract_keyword. by rewrite (same_extract _ _ Hsame). Qed.

Lemma get_secondary_search_same query lang :
  get_secondary_search lib1 query lang = get_secondary_search lib2 query lang.
Proof.
  unfold get_secondary_search.
  by rewrite extract_keyword_same, (same_match _ _ Hsame).
Qed.

Lemma fetch_plain_same q lang : fetch_plain lib1 q lang = fetch_plain lib2 q lang.
Proof.
  unfold fetch_plain. rewrite (same_tldr _ _ Hsame).
  apply bind_ext. intros sa. by rewrite (same_summary _ _ Hsame).
Qed.

Lemma fetch_about_same sub q lang :
  fetch_about lib1 sub q lang = fetch_about lib2 sub q lang.
Proof.
  unfold fetch_about. rewrite (same_tldr_about _ _ Hsame).
  apply bind_ext. intros sa. by rewrite (same_ask_about _ _ Hsame).
Qed.

Lemma extract_and_search_same query context :
  extract_and_search lib1 self query context = extract_and_search lib2 self query context.
Proof.
  unfold extract_and_search. apply bind_ext. intros lang.
  rewrite extract_keyword_same. apply bind_ext. intros k.
  by rewrite (same_search _ _ Hsame).
Qed.

Lemma get_data_same query context :
  get_data lib1 self query context = get_data lib2 self query context.
Proof.
  unfold get_data. apply bind_ext. intros lang.
  rewrite (same_page_data _ _ Hsame). apply bind_ext. intros pd.
  rewrite fetch_plain_same. apply bind_ext. intros data.
  rewrite get_secondary_search_same. f_equal.
  destruct (negb (truthy (py_or pd (VDict ∅)))); [|done].
  apply bind_ext. intros [q sub].
  by rewrite fetch_about_same, fetch_plain_same.
Qed.

Lemma get_image_same query context :
  get_image lib1 self query context = get_image lib2 self query context.
Proof. unfold get_image. by rewrite extract_and_search_same. Qed.

Lemma steps_of_same holder query text img :
  steps_of lib1 holder query text img = steps_of lib2 holder query text img.
Proof.
  unfold steps_of. rewrite (same_split _ _ Hsame). apply bind_ext. intros ss.
  apply mapM_ext. intros s. apply bind_ext. intros t.
  unfold py_title. destruct t; try done. by rewrite (same_title _ _ Hsame).
Qed.

Lemma section_steps_same secs query img :
  section_steps lib1 secs query img = section_steps lib2 secs query img.
Proof.
  induction secs as [|sec secs IH]; [done|]. cbn [section_steps].
  apply bind_ext. intros text. rewrite steps_of_same. apply bind_ext. intros here.
  by rewrite IH.
Qed.

Lemma get_expanded_answer_same query context :
  get_expanded_answer lib1 self query context
  = get_expanded_answer lib2 self query context.
Proof.
  unfold get_expanded_answer. rewrite get_data_same. apply bind_ext. intros data.
  rewrite get_image_same. apply bind_ext. intros img.
  apply bind_ext. intros summary. rewrite steps_of_same. apply bind_ext. intros steps.
  apply bind_ext. intros secs. by rewrite section_steps_same.
Qed.
End Same.

Lemma ask_the_wiki_results (lib : Library) (host : Host) (query : string) (s : skill) :
  results (after (ask_the_wiki lib host query) s)
  = chunks_of_answer (long_answer lib query (host_lang host)).
Proof.
  unfold ask_the_wiki, after, sk_bind, set_context, sk_modify, sk_get, sk_solver, sk_lift.
  simpl.
  destruct (long_answer lib query (host_lang host)) as [r|e]; simpl.
  - destruct (outcome (get_image lib (wiki s) query None)); simpl; [|done].
    destruct r as [|c r]; simpl; [done|].
    unfold results_index, list_index. simpl.
    destruct (c !! "summary"); done.
  - by destruct (outcome (get_image lib (wiki s) query None)).
Qed.

(** C9.  The steps of an answer are a function of the fetched data: two
    libraries that reply alike to the solver give the same expansion, call
    for call; and what the skill keeps of a resolution is what [long_answer]
    returned, whatever the skill held before, so that resolving the same
    query twice in a row keeps the same steps. *)
Theorem resolution_deterministic (lib1 lib2 : Library) (self : solver) (query : string)
    (context : option (gmap string value)) :
  same_answers lib1 lib2 →
  get_expanded_answer lib1 self query context = get_expanded_answer lib2 self query context
  ∧ ∀ (host : Host) (s : skill),
      results (after (ask_the_wiki lib1 host query) s)
      = chunks_of_answer (long_answer lib1 query (host_lang host))
      ∧ results (after (ask_the_wiki lib1 host query) (after (ask_the_wiki lib1 host query) s))
        = results (after (ask_the_wiki lib1 host query) s).
Proof.
  intros Hsame. split; [by apply get_expanded_answer_same|].
  intros host s. by rewrite !ask_the_wiki_results.
Qed.

Lemma resolution_deterministic_witness :
  get_expanded_answer Demo.core Demo.english "France" None
  = get_expanded_answer Demo.lib Demo.english "France" None.
Proof.
  refine (proj1 (resolution_deterministic Demo.core Demo.lib Demo.english "France" None _)).
  by constructor.
Defined.

(** ** The solver is English *)

Lemma solver_init_config_lang (config : option (gmap string value)) :
  solver_init_config config !! "lang" = Some (VStr "en").
Proof. unfold solver_init_config. by rewrite lookup_insert_eq. Qed.

Lemma solver_init_config_skill (lang : value) :
  solver_init_config (Some (<["lang" := lang]> ∅)) = <["lang" := VStr "en"]> ∅.
Proof.
  unfold solver_init_config.
  rewrite (truthy_dict_lookup _ "lang" lang) by apply lookup_insert_eq.
  apply insert_insert_eq.
Qed.

(** C10.  Whatever configuration the constructor of the solver receives,
    the configuration it hands to the base class has the language "en"; the
    solver built by the skill has that entry alone, whatever language the
    skill was configured with.  The base class reading its default language
    from that entry, the default language of the solver is English, and a
    fetch of [get_data] in another language implies that the context of the
    request carried a language of its own. *)
Theorem solver_language_is_english (lib : Library) :
  (∀ config, solver_config (WikipediaSolver_init lib config) !! "lang" = Some (VStr "en"))
  ∧ (∀ host, solver_config (wiki (WikipediaSkill_init lib host)) = <["lang" := VStr "en"]> ∅)
  ∧ ((∀ cfg l, cfg !! "lang" = Some (VStr l) → base_default_lang lib cfg = l) →
     ∀ config,
       default_lang (WikipediaSolver_init lib config) = "en"
       ∧ ∀ query context c l,
           c ∈ trace (get_data lib (WikipediaSolver_init lib config) query context) →
           call_lang c = Some l → l ≠ "en" →
           truthy (default VNone (context_or_empty context !! "lang")) = true).
Proof.
  split; [|split].
  - intros config. apply solver_init_config_lang.
  - intros host. unfold WikipediaSkill_init. simpl. apply solver_init_config_skill.
  - intros Hbase config.
    assert (default_lang (WikipediaSolver_init lib config) = "en") as Hen.
    { apply Hbase, solver_init_config_lang. }
    split; [done|]. intros query context c l Hc Hl Hne.
    destruct (truthy (default VNone (context_or_empty context !! "lang"))) eqn:Hctx; [done|].
    exfalso. apply Hne.
    pose proof (get_data_in_lang lib (WikipediaSolver_init lib config) query context
                  (split_dash_first "en")) as Hall.
    rewrite Forall_forall in Hall. apply (Hall ltac:(rewrite <- Hen; by apply request_lang_default) c Hc l Hl).
Qed.

Lemma solver_language_is_english_witness :
  default_lang (WikipediaSolver_init Demo.core (Some (<["lang" := VStr "pt"]> ∅))) = "en".
Proof.
  refine (proj1 (proj2 (proj2 (solver_language_is_english Demo.core)) _
                   (Some (<["lang" := VStr "pt"]> ∅)))).
  intros cfg l Hl. simpl. by rewrite Hl.
Defined.

(** ** The pagination cursor *)

Lemma list_index_lookup {A} (l : list A) (i : Z) (x : A) :
  0 ≤ i → l !! Z.to_nat i = Some x → list_index l i = Ok x.
Proof.
  intros Hi Hx. unfold list_index.
  pose proof (lookup_lt_Some _ _ _ Hx) as Hlt.
  destruct (i <? 0) eqn:Hneg; [lia|].
  rewrite Hneg. simpl.
  destruct (Z.of_nat (List.length l) <=? i) eqn:Hle; [lia|].
  by rewrite Hx.
Qed.

Section Cursor.
Variable lib : Library.
Variable host : Host.

Lemma display_wiki_entry_frame (title image_arg : value) (s : skill) :
  returned (display_wiki_entry host title image_arg) s = Ok tt
  ∧ idx (after (display_wiki_entry host title image_arg) s) = idx s
  ∧ results (after (display_wiki_entry host title image_arg) s) = results s
  ∧ spoken (after (display_wiki_entry host title image_arg) s) = spoken s
  ∧ context (after (display_wiki_entry host title image_arg) s) = context s.
Proof.
  unfold display_wiki_entry, returned, after.
  destruct (can_use_gui host); simpl; [|done].
  unfold sk_bind, sk_get. simpl.
  by destruct (truthy (py_or image_arg (image s))).
Qed.

Lemma speak_result_emit (s : skill) (chunks : list (gmap string value))
    (chunk : gmap string value) (text : value) :
  results s = Some chunks → 0 ≤ idx s →
  chunks !! Z.to_nat (idx s) = Some chunk →
  chunk !! "summary" = Some text →
  returned (speak_result host) s = Ok tt
  ∧ idx (after (speak_result host) s) = idx s + 1
  ∧ results (after (speak_result host) s) = Some chunks
  ∧ spoken (after (speak_result host) s) = spoken s ++ [Speak text]
  ∧ context (after (speak_result host) s) !! "WikiKnows" = Some (VStr "wikipedia").
Proof.
  intros Hres Hidx Hchunk Htext.
  pose proof (lookup_lt_Some _ _ _ Hchunk) as Hlt.
  unfold speak_result, returned, after, sk_bind, sk_get, sk_lift. simpl.
  rewrite Hres. simpl.
  destruct (idx s + 1 >? Z.of_nat (List.length chunks)) eqn:Hgt; [lia|].
  rewrite (list_index_lookup _ _ _ Hidx Hchunk). simpl. rewrite Htext. simpl.
  match goal with
  | |- context [display_wiki_entry host ?t ?i ?s'] =>
      pose proof (display_wiki_entry_frame t i s') as (Hret & Hi & Hr & Hsp & Hctx);
      unfold returned, after in Hret, Hi, Hr, Hsp, Hctx;
      destruct (display_wiki_entry host t i s') as [r s'']
  end.
  simpl in *. subst r. simpl.
  rewrite Hi, Hr, Hsp, Hctx. simpl.
  by rewrite Hres, lookup_insert_eq.
Qed.

Lemma speak_result_exhausted (s : skill) (chunks : list (gmap string value)) :
  results s = Some chunks → Z.of_nat (List.length chunks) ≤ idx s →
  returned (speak_result host) s = Ok tt
  ∧ idx (after (speak_result host) s) = 0
  ∧ results (after (speak_result host) s) = Some chunks
  ∧ spoken (after (speak_result host) s) = spoken s ++ [SpeakDialog "thats all" ∅]
  ∧ context (after (speak_result host) s) !! "WikiKnows" = None.
Proof.
  intros Hres Hidx.
  unfold speak_result, returned, after, sk_bind, sk_get, sk_lift. simpl.
  rewrite Hres. simpl.
  destruct (idx s + 1 >? Z.of_nat (List.length chunks)) eqn:Hgt; [|lia].
  simpl. by rewrite Hres, lookup_delete_eq.
Qed.

Lemma speak_result_cursor (s : skill) :
  cursor_ok s →
  cursor_ok (after (speak_result host) s)
  ∧ results (after (speak_result host) s) = results s
  ∧ (returned (speak_result host) s = Ok tt →
     idx (after (speak_result host) s)
     = if idx s <? chunk_count s then idx s + 1 else 0).
Proof.
  intros [Hlo Hhi]. unfold chunk_count in *.
  destruct (results s) as [chunks|] eqn:Hres; simpl in *.
  - destruct (chunks !! Z.to_nat (idx s)) as [chunk|] eqn:Hchunk.
    + pose proof (lookup_lt_Some _ _ _ Hchunk) as Hlt.
      destruct (chunk !! "summary") as [text|] eqn:Htext.
      * destruct (speak_result_emit s chunks chunk text Hres Hlo Hchunk Htext)
          as (_ & Hi & Hr & _).
        unfold cursor_ok, chunk_count. rewrite Hi, Hr. simpl.
        split; [lia|]. split; [done|]. intros _.
        destruct (idx s <? Z.of_nat (List.length chunks)) eqn:Hcmp; [done|lia].
      * assert (speak_result host s = (Raise (KeyError "summary"), s)) as Hraise.
        { unfold speak_result, sk_bind, sk_get, sk_lift. simpl. rewrite Hres. simpl.
          destruct (idx s + 1 >? Z.of_nat (List.length chunks)) eqn:Hgt; [lia|].
          rewrite (list_index_lookup _ _ _ Hlo Hchunk). simpl. by rewrite Htext. }
        unfold after, returned, cursor_ok, chunk_count. rewrite Hraise. simpl.
        rewrite Hres. simpl. done.
    + apply lookup_ge_None in Hchunk.
      destruct (speak_result_exhausted s chunks Hres ltac:(lia)) as (_ & Hi & Hr & _).
      unfold cursor_ok, chunk_count. rewrite Hi, Hr. simpl.
      split; [lia|]. split; [done|]. intros _.
      destruct (idx s <? Z.of_nat (List.length chunks)) eqn:Hcmp; [lia|done].
  - assert (speak_result host s = (Raise TypeError, s)) as Hraise.
    { unfold speak_result, sk_bind, sk_get, sk_lift. simpl. by rewrite Hres. }
    unfold after, returned, cursor_ok, chunk_count. rewrite Hraise. simpl.
    rewrite Hres. simpl. done.
Qed.

Lemma ask_the_wiki_idx (query : string) (s : skill) :
  idx (after (ask_the_wiki lib host query) s) = 0.
Proof.
  unfold ask_the_wiki, after, sk_bind, set_context, sk_modify, sk_get, sk_solver, sk_lift.
  simpl.
  destruct (long_answer lib query (host_lang host)) as [r|e]; simpl.
  - destruct (outcome (get_image lib (wiki s) query None)); simpl; [|done].
    destruct r as [|c r]; simpl; [done|].
    unfold results_index, list_index. simpl.
    destruct (c !! "summary"); done.
  - by destruct (outcome (get_image lib (wiki s) query None)).
Qed.

Lemma ask_the_wiki_answer (query : string) (s : skill) (title summary : value) :
  returned (ask_the_wiki lib host query) s = Ok (title, summary) →
  truthy summary = true →
  1 ≤ chunk_count (after (ask_the_wiki lib host query) s).
Proof.
  unfold chunk_count. rewrite ask_the_wiki_results.
  unfold ask_the_wiki, returned, sk_bind, set_context, sk_modify, sk_get, sk_solver, sk_lift.
  simpl.
  destruct (long_answer lib query (host_lang host)) as [r|e]; simpl.
  - destruct (outcome (get_image lib (wiki s) query None)); simpl; [|done].
    destruct r as [|c r]; simpl.
    + intros [= <- <-]. done.
    + intros _ _. lia.
  - destruct (outcome (get_image lib (wiki s) query None)); simpl; [|done].
    intros [= <- <-]. done.
Qed.

Lemma ask_the_wiki_cursor (query : string) (s : skill) :
  cursor_ok (after (ask_the_wiki lib host query) s).
Proof.
  unfold cursor_ok. rewrite ask_the_wiki_idx. unfold chunk_count. lia.
Qed.

Lemma handle_search_cursor (query : string) (s : skill) :
  cursor_ok (after (handle_search lib host query) s).
Proof.
  unfold handle_search, after, sk_bind, gui_do, speak_dialog, sk_modify. simpl.
  match goal with
  | |- context [ask_the_wiki lib host query ?s'] =>
      pose proof (ask_the_wiki_cursor query s') as Hok;
      unfold after in Hok;
      destruct (ask_the_wiki lib host query s') as [[[title summary]|e] s'']
  end; simpl in *; [|done].
  destruct (truthy summary).
  - by apply speak_result_cursor.
  - done.
Qed.

Lemma CQS_match_cursor (phrase : string) (s : skill) :
  cursor_ok (after (CQS_match_query_phrase lib host phrase) s).
Proof.
  unfold CQS_match_query_phrase, after, sk_bind.
  pose proof (ask_the_wiki_idx phrase s) as Hidx.
  pose proof (ask_the_wiki_answer phrase s) as Hans.
  unfold after, returned in Hidx, Hans.
  destruct (ask_the_wiki lib host phrase s) as [[[title summary]|e] s'] eqn:Hask;
    simpl in *; [|unfold cursor_ok, chunk_count; lia].
  destruct (truthy summary) eqn:Htruthy; simpl.
  - specialize (Hans title summary eq_refl Htruthy).
    unfold cursor_ok, chunk_count in *. simpl. lia.
  - unfold cursor_ok, chunk_count; lia.
Qed.

Lemma handle_cursor (r : request) (s : skill) :
  cursor_ok s → cursor_ok (handle lib host r s).
Proof.
  intros Hok. destruct r as [query| | |phrase|phrase data|]; simpl.
  - apply handle_search_cursor.
  - done.
  - by apply speak_result_cursor.
  - apply CQS_match_cursor.
  - unfold CQS_action, after, sk_bind.
    pose proof (display_wiki_entry_frame (VStr "Wikipedia") VNone s)
      as (Hret & Hi & Hr & _).
    unfold returned, after in Hret, Hi, Hr.
    destruct (display_wiki_entry host (VStr "Wikipedia") VNone s) as [ret s'].
    simpl in *. subst ret.
    assert (cursor_ok s') as Hok' by (unfold cursor_ok, chunk_count in *; by rewrite Hi, Hr).
    unfold sk_lift. destruct (py_get data "title" VNone); done.
  - done.
Qed.
End Cursor.

Lemma init_cursor (lib : Library) (host : Host) : cursor_ok (WikipediaSkill_init lib host).
Proof. unfold cursor_ok, chunk_count. simpl. lia. Qed.

(** C7.  In every state the skill can reach, the cursor lies between 0 and
    the number of chunks held.  Resolution puts it back to 0; a "more"
    request that returns moves it forward by one when a chunk is left to
    speak and back to 0 when none is; and every request keeps the bound. *)
Theorem cursor_invariant (s : skill) :
  reachable s →
  cursor_ok s
  ∧ ∀ (lib : Library) (host : Host),
      (∀ query, idx (after (ask_the_wiki lib host query) s) = 0)
      ∧ (returned (speak_result host) s = Ok tt →
         idx (after (speak_result host) s)
         = if idx s <? chunk_count s then idx s + 1 else 0)
      ∧ (∀ r, cursor_ok (handle lib host r s)).
Proof.
  intros Hreach.
  assert (cursor_ok s) as Hok.
  { induction Hreach as [lib host|lib host r s _ IH].
    - apply init_cursor.
    - by apply handle_cursor. }
  split; [done|]. intros lib host. split; [|split].
  - intros query. apply ask_the_wiki_idx.
  - by apply speak_result_cursor.
  - intros r. by apply handle_cursor.
Qed.

Lemma cursor_invariant_witness :
  cursor_ok (handle Demo.lib Demo.host ReqTellMore
               (handle Demo.lib Demo.host (ReqSearch "France")
                  (WikipediaSkill_init Demo.lib Demo.host))).
Proof.
  apply (cursor_invariant _
           (reachable_step Demo.lib Demo.host ReqTellMore _
              (reachable_step Demo.lib Demo.host (ReqSearch "France") _
                 (reachable_init Demo.lib Demo.host)))).
Defined.

(** ** Failures of the libraries *)

(** What the guard of [ask_the_wiki] does absorb: when [long_answer] raises
    and the image lookup returns, the search ends with the dialog
    "no_answer", the error logged and nothing raised. *)
Lemma long_answer_failure_absorbed (lib : Library) (host : Host) (query : string)
    (s : skill) (e : exn) (img : value) :
  long_answer lib query (host_lang host) = Raise e →
  outcome (get_image lib (wiki s) query None) = Ok img →
  returned (handle_search lib host query) s = Ok tt
  ∧ spoken (after (handle_search lib host query) s)
    = spoken s ++ [SpeakDialog "searching" (<["query" := VStr query]> ∅);
                   SpeakDialog "no_answer" ∅]
  ∧ errors (after (handle_search lib host query) s) = errors s ++ [e]
  ∧ results (after (handle_search lib host query) s) = None.
Proof.
  intros Hlong Himg.
  unfold handle_search, ask_the_wiki, returned, after, sk_bind, gui_do, speak_dialog,
    set_context, sk_modify, sk_get, sk_solver, sk_lift.
  simpl. rewrite Hlong. simpl. rewrite Himg. simpl.
  by rewrite <- app_assoc.
Qed.

(** The image lookup comes after the guarded call: should it raise, its
    exception leaves [handle_search] as it is, whatever [long_answer] did. *)
Lemma image_failure_escapes (lib : Library) (host : Host) (query : string)
    (s : skill) (e : exn) :
  outcome (get_image lib (wiki s) query None) = Raise e →
  returned (handle_search lib host query) s = Raise e
  ∧ returned (CQS_match_query_phrase lib host query) s = Raise e.
Proof.
  intros Himg.
  unfold CQS_match_query_phrase, handle_search, ask_the_wiki, returned, after, sk_bind,
    gui_do, speak_dialog, set_context, sk_modify, sk_get, sk_solver, sk_lift.
  simpl. destruct (long_answer lib query (host_lang host)); simpl; by rewrite Himg.
Qed.

(** After an absorbed failure the skill holds [None] for its chunks, and the
    next "more" request raises. *)
Lemma tell_more_after_failure (host : Host) (s : skill) :
  results s = None → returned (handle_tell_more host) s = Raise TypeError.
Proof.
  intros Hres. unfold handle_tell_more, speak_result, returned, sk_bind, sk_get, sk_lift.
  simpl. by rewrite Hres.
Qed.

(** C6, where the code departs from it.  When [long_answer] raises, the
    guard of [ask_the_wiki] catches and logs the exception and the user hears
    "no_answer", as the claim says; but what the guard stores is [None] and
    not an empty result, and the next "more" request raises a [TypeError] at
    [len(self.results)], speaking nothing: the fault does reach the
    conversation.  The same holds after the common-query match. *)
Theorem upstream_failure_escapes (lib : Library) (host : Host) (query : string)
    (s : skill) (e : exn) (img : value) :
  long_answer lib query (host_lang host) = Raise e →
  outcome (get_image lib (wiki s) query None) = Ok img →
  let s1 := after (handle_search lib host query) s in
  let s2 := after (CQS_match_query_phrase lib host query) s in
  (returned (handle_search lib host query) s = Ok tt
   ∧ spoken s1 = spoken s ++ [SpeakDialog "searching" (<["query" := VStr query]> ∅);
                              SpeakDialog "no_answer" ∅]
   ∧ errors s1 = errors s ++ [e])
  ∧ (results s1 = None
     ∧ returned (handle_tell_more host) s1 = Raise TypeError
     ∧ spoken (after (handle_tell_more host) s1) = spoken s1)
  ∧ (returned (CQS_match_query_phrase lib host query) s = Ok None
     ∧ results s2 = None
     ∧ returned (handle_tell_more host) s2 = Raise TypeError).
Proof.
  intros Hlong Himg s1 s2.
  destruct (long_answer_failure_absorbed lib host query s e img Hlong Himg)
    as (Hret & Hsp & Herr & Hres).
  assert (returned (CQS_match_query_phrase lib host query) s = Ok None
          ∧ results s2 = None) as [Hret2 Hres2].
  { subst s2.
    unfold CQS_match_query_phrase, ask_the_wiki, returned, after, sk_bind, set_context,
      sk_modify, sk_get, sk_solver, sk_lift.
    simpl. rewrite Hlong. simpl. by rewrite Himg. }
  split; [done|]. split; [|by split; [|split; [|apply tell_more_after_failure]]].
  split; [done|]. split; [by apply tell_more_after_failure|].
  subst s1. unfold handle_tell_more, speak_result, after, sk_bind, sk_get, sk_lift.
  simpl. unfold after in Hres. by rewrite Hres.
Qed.

Lemma upstream_failure_escapes_witness :
  let s0 := WikipediaSkill_init Demo.offline Demo.host in
  let s1 := after (handle_search Demo.offline Demo.host "who is Isaac Newton") s0 in
  returned (handle_search Demo.offline Demo.host "who is Isaac Newton") s0 = Ok tt
  ∧ spoken s1 = [SpeakDialog "searching" (<["query" := VStr "who is Isaac Newton"]> ∅);
                 SpeakDialog "no_answer" ∅]
  ∧ results s1 = None
  ∧ returned (handle_tell_more Demo.host) s1 = Raise TypeError.
Proof.
  intros s0 s1.
  destruct (upstream_failure_escapes Demo.offline Demo.host "who is Isaac Newton" s0
              (LibraryError "no route to host") VNone
              ltac:(reflexivity) ltac:(vm_compute; reflexivity))
    as ((Hret & Hsp & _) & (Hres & Hmore & _) & _).
  split; [exact Hret|]. split; [exact Hsp|]. split; [exact Hres|exact Hmore].
Defined.

(** * Further properties of the solver *)

(** ** More on resolution: what [get_data] returns *)

Lemma get_data_inv (lib : Library) (self : solver) (query : string)
    (context : option (gmap string value)) (d : gmap string value) :
  outcome (get_data lib self query context) = Ok d →
  ∃ lang pd page sa su query',
    outcome (request_lang self (context_or_empty context)) = Ok lang
    ∧ wfh_page_data lib (VStr query) lang = Ok pd
    ∧ py_or pd (VDict ∅) = VDict page
    ∧ d = <["title" := py_or (default VNone (page !! "title")) query']>
            (<["short_answer" := sa]> (<["summary" := su]> ∅) ∪ page)
    ∧ (truthy pd = true →
       query' = VStr query
       ∧ wfh_tldr lib (VStr query) lang = Ok sa
       ∧ wfh_summary lib (VStr query) lang = Ok su)
    ∧ (truthy pd = false →
       ∃ sub, outcome (get_secondary_search lib query lang) = Ok (query', sub)
              ∧ if truthy sub
                then wfh_tldr_about lib sub query' lang = Ok sa
                     ∧ wfh_ask_about lib sub query' lang = Ok su
                else wfh_tldr lib query' lang = Ok sa
                     ∧ wfh_summary lib query' lang = Ok su).
Proof.
  intros Hd. unfold get_data in Hd.
  apply bind_Ok_inv in Hd as (lang & Hlang & Hd).
  apply bind_Ok_inv in Hd as (pd & Hpd & Hd). rewrite outcome_ext in Hpd.
  apply bind_Ok_inv in Hd as (a & Ha & Hd).
  apply fetch_plain_inv in Ha as (sa0 & su0 & Hsa0 & Hsu0 & ->).
  apply bind_Ok_inv in Hd as ([query' data] & Hbranch & Hd).
  apply bind_Ok_inv in Hd as (page_data & Hupdate & Hd).
  rewrite outcome_ret in Hd. injection Hd as <-.
  rewrite outcome_lift in Hupdate. rewrite truthy_or_empty in Hbranch.
  destruct (py_or pd (VDict ∅)) as [| | |page] eqn:Hor; try done.
  injection Hupdate as <-.
  destruct (truthy pd) eqn:Htruthy; simpl negb in Hbranch; cbv iota in Hbranch.
  - rewrite outcome_ret in Hbranch. injection Hbranch as <- <-.
    exists lang, pd, page, sa0, su0, (VStr query).
    do 3 (split; [done|]). split; [by rewrite answers_no_title|].
    split; [done|]. intros; congruence.
  - apply bind_Ok_inv in Hbranch as ([q sub] & Hsec & Hfetch).
    destruct (truthy sub) eqn:Hsub.
    + apply bind_Ok_inv in Hfetch as (data' & Hdata & Hret). injection Hret as <- <-.
      apply fetch_about_inv in Hdata as (sa & su & Hsa & Hsu & ->).
      exists lang, pd, page, sa, su, q.
      do 3 (split; [done|]). split; [by rewrite answers_no_title|].
      split; [intros; congruence|].
      intros _. exists sub. by rewrite Hsub.
    + apply bind_Ok_inv in Hfetch as (data' & Hdata & Hret). injection Hret as <- <-.
      apply fetch_plain_inv in Hdata as (sa & su & Hsa & Hsu & ->).
      exists lang, pd, page, sa, su, q.
      do 3 (split; [done|]). split; [by rewrite answers_no_title|].
      split; [intros; congruence|].
      intros _. exists sub. by rewrite Hsub.
Qed.

(** X1.  Whatever [get_data] returns has a title, a short answer and a
    summary: the three keys are always there, also when the page data had
    none of them. *)
Theorem get_data_keys (lib : Library) (self : solver) (query : string)
    (context : option (gmap string value)) (d : gmap string value) :
  outcome (get_data lib self query context) = Ok d →
  is_Some (d !! "title") ∧ is_Some (d !! "short_answer") ∧ is_Some (d !! "summary").
Proof.
  intros Hd. apply get_data_inv in Hd as (lang & pd & page & sa & su & q' & _ & _ & _ & -> & _).
  split; [|split].
  - by rewrite lookup_insert_eq.
  - rewrite lookup_insert_ne by done. erewrite lookup_union_Some_l; [done|].
    by rewrite lookup_insert_eq.
  - rewrite lookup_insert_ne by done. erewrite lookup_union_Some_l; [done|].
    by rewrite lookup_insert_ne, lookup_insert_eq.
Qed.

Lemma get_data_keys_witness :
  is_Some ((<["title" := VStr "France"]>
              (<["short_answer" := VStr "S1."]>
                 (<["summary" := VStr "S1. S2."]> Demo.france))) !! "summary").
Proof.
  refine (proj2 (proj2 (get_data_keys Demo.core Demo.english "France" None _ _))).
  vm_compute. reflexivity.
Defined.

(** X2.  The merge of [get_data] when a page is found: the short answer and
    the summary are the ones fetched for the query, whatever the page data
    had under these keys; the title is the page's, or the query when the
    page has none; every other key of the page data is returned as it is. *)
Theorem get_data_merge (lib : Library) (self : solver) (query : string)
    (context : option (gmap string value)) (lang : string)
    (page d : gmap string value) :
  outcome (request_lang self (context_or_empty context)) = Ok lang →
  wfh_page_data lib (VStr query) lang = Ok (VDict page) →
  truthy (VDict page) = true →
  outcome (get_data lib self query context) = Ok d →
  (∃ sa su, wfh_tldr lib (VStr query) lang = Ok sa
            ∧ wfh_summary lib (VStr query) lang = Ok su
            ∧ d !! "short_answer" = Some sa ∧ d !! "summary" = Some su)
  ∧ d !! "title" = Some (py_or (default VNone (page !! "title")) (VStr query))
  ∧ ∀ k, k ≠ "title" → k ≠ "short_answer" → k ≠ "summary" → d !! k = page !! k.
Proof.
  intros Hlang Hpd Htruthy Hd.
  apply get_data_inv in Hd
    as (lang' & pd & page' & sa & su & q' & Hlang' & Hpd' & Hor & -> & Hfound & _).
  assert (lang' = lang) as -> by congruence.
  rewrite Hpd in Hpd'. injection Hpd' as <-.
  rewrite (py_or_truthy _ _ Htruthy) in Hor. injection Hor as <-.
  destruct (Hfound Htruthy) as (-> & Hsa & Hsu).
  split; [|split].
  - exists sa, su. repeat split; try done.
    + rewrite lookup_insert_ne by done. erewrite lookup_union_Some_l; [done|].
      by rewrite lookup_insert_eq.
    + rewrite lookup_insert_ne by done. erewrite lookup_union_Some_l; [done|].
      by rewrite lookup_insert_ne, lookup_insert_eq.
  - by rewrite lookup_insert_eq.
  - intros k Ht Hsa' Hsu'. rewrite lookup_insert_ne by done.
    rewrite lookup_union_r; [done|].
    by rewrite !lookup_insert_ne, lookup_empty.
Qed.

Lemma get_data_merge_witness :
  (<["title" := VStr "France"]>
     (<["short_answer" := VStr "S1."]>
        (<["summary" := VStr "S1. S2."]> Demo.france))) !! "images"
  = Demo.france !! "images".
Proof.
  refine (proj2 (proj2 (get_data_merge Demo.core Demo.english "France" None "en"
                          Demo.france _ _ _ _ _)) "images" _ _ _);
    first [discriminate | vm_compute; reflexivity].
Defined.

(** X3.  When no page is found, the answers returned are those of the one
    secondary fetch: the attribute fetches for (subquery, subject) when the
    secondary search gave a subquery, the plain fetches for the subject
    otherwise; what the first fetches for the raw query returned is
    dropped. *)
Theorem get_data_secondary_answers (lib : Library) (self : solver) (query : string)
    (context : option (gmap string value)) (lang : string) (pd subject sub : value)
    (d : gmap string value) :
  outcome (request_lang self (context_or_empty context)) = Ok lang →
  wfh_page_data lib (VStr query) lang = Ok pd →
  truthy pd = false →
  outcome (get_secondary_search lib query lang) = Ok (subject, sub) →
  outcome (get_data lib self query context) = Ok d →
  ∃ sa su,
    d = <["title" := subject]> (<["short_answer" := sa]> (<["summary" := su]> ∅))
    ∧ if truthy sub
      then wfh_tldr_about lib sub subject lang = Ok sa
           ∧ wfh_ask_about lib sub subject lang = Ok su
      else wfh_tldr lib subject lang = Ok sa
           ∧ wfh_summary lib subject lang = Ok su.
Proof.
  intros Hlang Hpd Hfalsy Hsec Hd.
  apply get_data_inv in Hd
    as (lang' & pd' & page & sa & su & q' & Hlang' & Hpd' & Hor & -> & _ & Hnone).
  assert (lang' = lang) as -> by congruence.
  rewrite Hpd in Hpd'. injection Hpd' as <-.
  rewrite (py_or_falsy _ _ Hfalsy) in Hor. injection Hor as <-.
  destruct (Hnone Hfalsy) as (sub' & Hsec' & Hfetch).
  rewrite Hsec in Hsec'. injection Hsec' as <- <-.
  exists sa, su. split; [|done].
  by rewrite lookup_empty, (right_id_L ∅ (∪)).
Qed.

Lemma get_data_secondary_answers_witness :
  ∃ sa su,
    (<["title" := VStr "France"]>
       (<["short_answer" := VStr "About 68 million."]>
          (<["summary" := VStr "About 68 million. Mostly in towns."]> ∅))
     : gmap string value)
    = <["title" := VStr "France"]> (<["short_answer" := sa]> (<["summary" := su]> ∅))
    ∧ wfh_tldr_about Demo.core (VStr "population") (VStr "France") "en" = Ok sa
    ∧ wfh_ask_about Demo.core (VStr "population") (VStr "France") "en" = Ok su.
Proof.
  refine (get_data_secondary_answers Demo.core Demo.english
            "what is the population of France" None "en" VNone
            (VStr "France") (VStr "population") _ _ _ _ _ _);
    vm_compute; reflexivity.
Defined.

(** ** Failures are not caught by the solver *)

(** X4.  A page fetch that raises ends [get_data] at once with that
    exception: the short answer and the summary are not asked for, and no
    secondary search is tried. *)
Theorem page_fetch_failure_aborts (lib : Library) (self : solver) (query : string)
    (context : option (gmap string value)) (lang : string) (e : exn) :
  outcome (request_lang self (context_or_empty context)) = Ok lang →
  wfh_page_data lib (VStr query) lang = Raise e →
  get_data lib self query context = ([CPageData (VStr query) lang], Raise e).
Proof.
  intros Hlang Hpd. unfold get_data.
  unfold request_lang in *. rewrite outcome_lift in Hlang.
  unfold lift. rewrite Hlang. unfold bind at 1. unfold ext. rewrite Hpd. reflexivity.
Qed.

Lemma page_fetch_failure_aborts_witness :
  get_data Demo.offline Demo.english "France" None
  = ([CPageData (VStr "France") "en"], Raise (LibraryError "no route to host")).
Proof.
  apply (page_fetch_failure_aborts Demo.offline Demo.english "France" None "en");
    vm_compute; reflexivity.
Defined.

(** X5.  [get_expanded_answer] catches nothing: when [get_data] raises, it
    raises the same exception after the same calls, the image not being
    looked for; and when the image lookup raises, it raises that. *)
Theorem expansion_propagates_failures (lib : Library) (self : solver) (query : string)
    (context : option (gmap string value)) (e : exn) :
  (outcome (get_data lib self query context) = Raise e →
   get_expanded_answer lib self query context
   = (trace (get_data lib self query context), Raise e))
  ∧ (∀ data, outcome (get_data lib self query context) = Ok data →
             outcome (get_image lib self query context) = Raise e →
             outcome (get_expanded_answer lib self query context) = Raise e).
Proof.
  split.
  - intros Hd. unfold get_expanded_answer.
    destruct (get_data lib self query context) as [l r]. simpl in *. by subst r.
  - intros data Hd Himg. unfold get_expanded_answer.
    rewrite (outcome_bind_Ok _ _ _ Hd). by rewrite outcome_bind, Himg.
Qed.

Lemma expansion_propagates_failures_witness :
  get_expanded_answer Demo.offline Demo.english "France" None
  = ([CPageData (VStr "France") "en"], Raise (LibraryError "no route to host")).
Proof.
  refine (eq_trans
            (proj1 (expansion_propagates_failures Demo.offline Demo.english "France" None
                      (LibraryError "no route to host")) _) _);
    vm_compute; reflexivity.
Defined.

(** ** Which calls the secondary search makes *)

(** X6.  For a language other than English the template is not tried and
    the extractor is the only call; for English the template is tried first,
    and the extractor is consulted only when it does not match. *)
Theorem secondary_search_calls (lib : Library) (query lang : string) :
  (lang ≠ "en" →
   trace (get_secondary_search lib query lang)
   = [CSecondary query lang; CExtract query lang])
  ∧ (∀ m, simplematch_match lib pattern query = Some m → truthy (VDict m) = true →
          trace (get_secondary_search lib query "en")
          = [CSecondary query "en"; CMatch pattern query])
  ∧ (simplematch_match lib pattern query = None →
     trace (get_secondary_search lib query "en")
     = [CSecondary query "en"; CMatch pattern query; CExtract query "en"]).
Proof.
  assert (Hfall : ∀ l, trace (q <- extract_keyword lib query l ; ret (q, VNone))
                       = [CExtract query l]).
  { intros l. unfold extract_keyword. run.
    by destruct (extract_subject lib query l). }
  split; [|split].
  - intros Hne. unfold get_secondary_search. run.
    apply String.eqb_neq in Hne. rewrite Hne. by rewrite Hfall.
  - intros m Hm Htruthy. unfold get_secondary_search. run.
    change (String.eqb "en" "en") with true. cbv iota. run.
    rewrite Hm, Htruthy. run.
    destruct (py_getitem (VDict m) "query"); [|done]. run.
    by destruct (py_getitem (VDict m) "subquery").
  - intros Hm. unfold get_secondary_search. run.
    change (String.eqb "en" "en") with true. cbv iota. run.
    rewrite Hm. by rewrite Hfall.
Qed.

Lemma secondary_search_calls_witness :
  trace (get_secondary_search Demo.core "Quem foi Newton" "pt")
  = [CSecondary "Quem foi Newton" "pt"; CExtract "Quem foi Newton" "pt"]
  ∧ trace (get_secondary_search Demo.core "what is the population of France" "en")
    = [CSecondary "what is the population of France" "en";
       CMatch pattern "what is the population of France"].
Proof.
  split.
  - apply (proj1 (secondary_search_calls Demo.core "Quem foi Newton" "pt")). discriminate.
  - eapply (proj1 (proj2 (secondary_search_calls Demo.core
                            "what is the population of France" "en")));
      vm_compute; reflexivity.
Defined.

(** ** The keyword search and what is read from its result *)

(** X7.  [extract_and_search] searches for the extracted keyword, not for
    the text it was given: with a keyword found in the language of the
    request, its calls are the extraction and then one search of that
    keyword, with the context of the request, and its result is the
    search's; with an empty keyword no search is made at all. *)
Theorem extract_and_search_keyword (lib : Library) (self : solver) (query : string)
    (context : option (gmap string value)) (lang : string) (k : value) :
  outcome (request_lang self (context_or_empty context)) = Ok lang →
  extract_subject lib query lang = Ok k →
  extract_and_search lib self query context
  = if truthy k
    then ([CExtract query lang; CSearch k (context_or_empty context)],
          search lib k (context_or_empty context))
    else ([CExtract query lang], Ok (VDict ∅)).
Proof.
  intros Hlang Hk. unfold extract_and_search.
  unfold request_lang in *. rewrite outcome_lift in Hlang.
  unfold lift. rewrite Hlang. unfold bind at 1.
  unfold extract_keyword, ext. rewrite Hk. unfold bind.
  by destruct (truthy k).
Qed.

Lemma extract_and_search_keyword_witness :
  extract_and_search Demo.core Demo.english "who is France" None
  = ([CExtract "who is France" "en"; CSearch (VStr "France") ∅], Ok (VDict Demo.france)).
Proof.
  apply (extract_and_search_keyword Demo.core Demo.english "who is France" None "en"
           (VStr "France")); vm_compute; reflexivity.
Defined.

(** X8.  [get_image] never raises over what the search returned: it gives
    the first image when the result is a dict whose "images" is a list that
    has one, and [None] when the key is missing, the list is empty or the
    result is not a dict at all. *)
Theorem get_image_first_or_none (lib : Library) (self : solver) (query : string)
    (context : option (gmap string value)) (data : value) :
  outcome (extract_and_search lib self query context) = Ok data →
  (∃ img, outcome (get_image lib self query context) = Ok img)
  ∧ (∀ d first rest, data = VDict d → d !! "images" = Some (VList (first :: rest)) →
                     outcome (get_image lib self query context) = Ok first)
  ∧ (∀ d, data = VDict d → d !! "images" = None ∨ d !! "images" = Some (VList []) →
          outcome (get_image lib self query context) = Ok VNone)
  ∧ ((∀ d, data ≠ VDict d) →
     outcome (get_image lib self query context) = Ok VNone).
Proof.
  intros Hdata. unfold get_image. rewrite (outcome_bind_Ok _ _ _ Hdata).
  split; [|split; [|split]].
  - unfold catch, lift, ret, outcome. simpl.
    destruct (py_getitem data "images") as [imgs|]; [|by eexists].
    destruct (py_first imgs); by eexists.
  - intros d first rest -> Himgs. simpl. by rewrite Himgs.
  - intros d -> [Himgs|Himgs]; simpl; by rewrite Himgs.
  - intros Hnot. destruct data as [| | |d]; try done. by destruct (Hnot d).
Qed.

Lemma get_image_first_or_none_witness :
  outcome (get_image Demo.core Demo.english "who is France" None) = Ok (VStr "france.png")
  ∧ outcome (get_image Demo.core Demo.english "who is Nobody" None) = Ok VNone.
Proof.
  split.
  - refine (proj1 (proj2 (get_image_first_or_none Demo.core Demo.english "who is France"
                            None (VDict Demo.france) _)) Demo.france _ [] _ _);
      vm_compute; reflexivity.
  - refine (proj1 (proj2 (proj2 (get_image_first_or_none Demo.core Demo.english
                                   "who is Nobody" None (VDict ∅) _))) ∅ _ _);
      [vm_compute; reflexivity | reflexivity | left; reflexivity].
Defined.

(** X9.  [get_spoken_answer] gives the summary of what the search returned,
    and the empty string when it has none; unlike [get_image] it does not
    guard the read, and raises when the search returned something that is
    not a dict. *)
Theorem get_spoken_answer_summary (lib : Library) (self : solver) (query : string)
    (context : option (gmap string value)) (data : value) :
  outcome (extract_and_search lib self query context) = Ok data →
  (∀ d s, data = VDict d → d !! "summary" = Some s →
          outcome (get_spoken_answer lib self query context) = Ok s)
  ∧ (∀ d, data = VDict d → d !! "summary" = None →
          outcome (get_spoken_answer lib self query context) = Ok (VStr ""))
  ∧ ((∀ d, data ≠ VDict d) →
     outcome (get_spoken_answer lib self query context) = Raise AttributeError).
Proof.
  intros Hdata. unfold get_spoken_answer. rewrite (outcome_bind_Ok _ _ _ Hdata).
  split; [|split].
  - intros d s -> Hs. simpl. by rewrite Hs.
  - intros d -> Hs. simpl. by rewrite Hs.
  - intros Hnot. destruct data as [| | |d]; try done. by destruct (Hnot d).
Qed.

Lemma get_spoken_answer_summary_witness :
  outcome (get_spoken_answer Demo.core Demo.english "who is Nobody" None) = Ok (VStr "").
Proof.
  refine (proj1 (proj2 (get_spoken_answer_summary Demo.core Demo.english "who is Nobody"
                          None (VDict ∅) _)) ∅ _ _); vm_compute; reflexivity.
Defined.

(** X10.  The image of an answer is looked up in the default language of
    the solver when no context is given, as the skill does: every call made
    by [get_image] that takes a language takes that one. *)
Theorem get_image_default_language (lib : Library) (self : solver) (query : string) :
  Forall (in_lang (split_dash_first (default_lang self)))
    (trace (get_image lib self query None)).
Proof.
  unfold get_image. apply Forall_trace_bind.
  - apply extract_and_search_in_lang. by apply request_lang_default.
  - intros data _. unfold catch, lift, ret, trace. simpl.
    destruct (py_getitem data "images") as [imgs|]; [|constructor].
    destruct (py_first imgs); constructor.
Qed.

(** ** A section without text *)

Lemma section_steps_missing_text (lib : Library) (query : string) (img : value)
    (sentences : value → list string) (good : list value) (views : list (string * value))
    (bad : gmap string value) (rest : list value) :
  Forall2 (section_of query) good views →
  (∀ tx, tx ∈ views → sentence_split lib tx.2 (-1) = Ok (sentences tx.2)) →
  bad !! "text" = None →
  outcome (section_steps lib (good ++ VDict bad :: rest) query img)
  = Raise (KeyError "text").
Proof.
  intros Hviews. induction Hviews as [|sec tx secs views (d & -> & Htitle & Htext) _ IH];
    intros Hsplit Hbad.
  - cbn [app section_steps]. rewrite outcome_bind, outcome_lift. simpl. by rewrite Hbad.
  - cbn [app section_steps].
    rewrite (outcome_bind_Ok _ _ tx.2); [|by rewrite outcome_lift; simpl; rewrite Htext].
    rewrite (outcome_bind_Ok _ _ (tagged lib img sentences tx.1 tx.2)).
    + rewrite outcome_bind. rewrite IH; [done| |done].
      intros tx' Hin. apply Hsplit. by right.
    + apply steps_of_Ok; [by simpl; rewrite Htitle|]. apply Hsplit. by left.
Qed.

(** X11.  The text of a section is read without a default, unlike its
    title: one section without a "text" key makes the whole expansion raise
    [KeyError], the steps of the summary and of the sections before it being
    lost. *)
Theorem section_without_text_fails (lib : Library) (self : solver) (query : string)
    (context : option (gmap string value)) (data : gmap string value) (img : value)
    (t : string) (summary : value) (good rest : list value) (bad : gmap string value)
    (views : list (string * value)) (sentences : value → list string) :
  outcome (get_data lib self query context) = Ok data →
  outcome (get_image lib self query context) = Ok img →
  data !! "title" = Some (VStr t) →
  data !! "summary" = Some summary →
  data !! "sections" = Some (VList (good ++ VDict bad :: rest)) →
  Forall2 (section_of query) good views →
  sentence_split lib summary (-1) = Ok (sentences summary) →
  (∀ tx, tx ∈ views → sentence_split lib tx.2 (-1) = Ok (sentences tx.2)) →
  bad !! "text" = None →
  outcome (get_expanded_answer lib self query context) = Raise (KeyError "text").
Proof.
  intros Hdata Himg Htitle Hsummary Hsecs Hviews Hsplit Hsplits Hbad.
  unfold get_expanded_answer.
  rewrite (outcome_bind_Ok _ _ _ Hdata), (outcome_bind_Ok _ _ _ Himg).
  rewrite (outcome_bind_Ok _ _ summary); [|by rewrite outcome_lift; simpl; rewrite Hsummary].
  rewrite (outcome_bind_Ok _ _ (tagged lib img sentences t summary));
    [|by apply steps_of_Ok; [simpl; rewrite Htitle|]].
  rewrite Hsecs. simpl default.
  rewrite (outcome_bind_Ok _ _ (good ++ VDict bad :: rest)); [|done].
  rewrite outcome_bind.
  by rewrite (section_steps_missing_text _ _ _ sentences _ _ _ _ Hviews Hsplits Hbad).
Qed.

Lemma section_without_text_fails_witness :
  outcome (get_expanded_answer Damaged.lib Demo.english "France" None)
  = Raise (KeyError "text").
Proof.
  pose (sentences := λ v : value,
          match v with VStr s => Demo.split_sentences s "" | _ => [] end).
  refine (section_without_text_fails Damaged.lib Demo.english "France" None
            (<["title" := VStr "France"]>
               (<["short_answer" := VStr "S1."]>
                  (<["summary" := VStr "S1. S2."]> Damaged.page)))
            (VStr "france.png") "France" (VStr "S1. S2.")
            [VDict (<["title" := VStr "history"]> (<["text" := VStr "S3."]> ∅))]
            [VDict (<["title" := VStr "after"]> (<["text" := VStr "S4."]> ∅))]
            (<["title" := VStr "notes"]> ∅)
            [("history", VStr "S3.")]
            sentences _ _ _ _ _ _ _ _ _).
  - vm_compute; reflexivity.
  - vm_compute; reflexivity.
  - vm_compute; reflexivity.
  - vm_compute; reflexivity.
  - vm_compute; reflexivity.
  - repeat constructor; eexists; (split; [reflexivity|]); split; vm_compute; reflexivity.
  - reflexivity.
  - intros tx Hin. apply list_elem_of_In in Hin.
    destruct Hin as [<-|[]]; reflexivity.
  - vm_compute; reflexivity.
Defined.

(** ** The language tag *)

(** X12.  Cutting a language tag before its first dash: a tag made of a
    dash-free code, a dash and anything else is cut down to the code; a
    dash-free code is left as it is; and cutting twice is cutting once. *)
Theorem split_dash_first_code (code : string) :
  Forall (λ c, c ≠ "-"%char) (list_ascii_of_string code) →
  (∀ region, split_dash_first (String.append code (String "-" region)) = code)
  ∧ split_dash_first code = code
  ∧ ∀ tag, split_dash_first (split_dash_first tag) = split_dash_first tag.
Proof.
  intros Hcode.
  assert (Hfix : ∀ s, Forall (λ c, c ≠ "-"%char) (list_ascii_of_string s) →
                      split_dash_first s = s).
  { induction s as [|c s IH]; [done|]. simpl. intros Hs.
    apply Forall_cons in Hs as [Hc Hs].
    apply Ascii.eqb_neq in Hc. rewrite Hc. by rewrite IH. }
  split; [|split].
  - intros region. induction code as [|c code IH]; [done|].
    simpl in *. apply Forall_cons in Hcode as [Hc Hcode].
    apply Ascii.eqb_neq in Hc. rewrite Hc. by rewrite IH.
  - by apply Hfix.
  - intros tag. apply Hfix, split_dash_first_no_dash.
Qed.

Lemma split_dash_first_code_witness : split_dash_first "pt-BR" = "pt".
Proof.
  refine (proj1 (split_dash_first_code "pt" _) "BR").
  repeat constructor; discriminate.
Defined.

(** * Further properties of the skill *)

(** ** What a search answers, and what follows it *)

Lemma tell_more_from (host : Host) (s : skill) (chunks : list (gmap string value))
    (i n : nat) :
  results s = Some chunks → idx s = Z.of_nat i →
  (∀ chunk, chunk ∈ chunks → is_Some (chunk !! "summary")) →
  (i + n ≤ List.length chunks)%nat →
  results (tell_more_times host n s) = Some chunks
  ∧ idx (tell_more_times host n s) = Z.of_nat (i + n).
Proof.
  intros Hres Hidx Hsum. induction n as [|n IH]; intros Hn.
  - simpl. by rewrite Nat.add_0_r.
  - destruct IH as [Hr Hi]; [lia|].
    destruct (lookup_lt_is_Some_2 chunks (i + n) ltac:(lia)) as [chunk Hchunk].
    destruct (Hsum chunk ltac:(by eapply list_elem_of_lookup_2)) as [text Htext].
    cbn [tell_more_times]. unfold handle_tell_more.
    destruct (speak_result_emit host _ chunks chunk text Hr ltac:(lia)
                ltac:(by rewrite Hi, Nat2Z.id) Htext) as (_ & Hi' & Hr' & _).
    split; [done|]. rewrite Hi', Hi. lia.
Qed.

Lemma tell_more_from_speaks (host : Host) (s : skill) (chunks : list (gmap string value))
    (i : nat) :
  results s = Some chunks → idx s = Z.of_nat i → (i ≤ List.length chunks)%nat →
  (∀ chunk, chunk ∈ chunks → is_Some (chunk !! "summary")) →
  (∀ n chunk text,
     chunks !! (i + n)%nat = Some chunk → chunk !! "summary" = Some text →
     spoken (tell_more_times host (S n) s)
     = spoken (tell_more_times host n s) ++ [Speak text])
  ∧ spoken (tell_more_times host (S (List.length chunks - i)) s)
    = spoken (tell_more_times host (List.length chunks - i) s)
      ++ [SpeakDialog "thats all" ∅]
  ∧ idx (tell_more_times host (S (List.length chunks - i)) s) = 0
  ∧ results (tell_more_times host (S (List.length chunks - i)) s) = Some chunks.
Proof.
  intros Hres Hidx Hi Hsum. split.
  - intros n chunk text Hchunk Htext.
    pose proof (lookup_lt_Some _ _ _ Hchunk) as Hlt.
    destruct (tell_more_from host s chunks i n Hres Hidx Hsum ltac:(lia)) as [Hr Hn].
    cbn [tell_more_times]. unfold handle_tell_more.
    by destruct (speak_result_emit host _ chunks chunk text Hr ltac:(lia)
                   ltac:(by rewrite Hn, Nat2Z.id) Htext) as (_ & _ & _ & Hsp & _).
  - destruct (tell_more_from host s chunks i (List.length chunks - i) Hres Hidx Hsum
                ltac:(lia)) as [Hr Hn].
    cbn [tell_more_times]. unfold handle_tell_more.
    by destruct (speak_result_exhausted host _ chunks Hr ltac:(lia))
      as (_ & Hi' & Hr' & Hsp & _).
Qed.

Lemma speak_result_keeps (host : Host) (s : skill) :
  wiki (after (speak_result host) s) = wiki s
  ∧ image (after (speak_result host) s) = image s
  ∧ errors (after (speak_result host) s) = errors s
  ∧ results (after (speak_result host) s) = results s
  ∧ current_title (after (speak_result host) s) = current_title s.
Proof.
  unfold speak_result, after, sk_bind, sk_get, sk_lift. simpl.
  destruct (results s) as [chunks|] eqn:Hres; simpl; [|by rewrite ?Hres].
  destruct (idx s + 1 >? Z.of_nat (List.length chunks)); simpl; [by rewrite ?Hres|].
  destruct (list_index chunks (idx s)) as [chunk|e]; simpl; [|by rewrite ?Hres].
  destruct (chunk !! "summary") as [text|]; simpl; [|by rewrite ?Hres].
  unfold display_wiki_entry. destruct (can_use_gui host); simpl; [|by rewrite ?Hres].
  unfold sk_bind, sk_get. simpl.
  by destruct (truthy (py_or VNone (image s))); simpl; rewrite ?Hres.
Qed.

Lemma ask_the_wiki_chunks (lib : Library) (host : Host) (query : string) (s : skill)
    (first : gmap string value) (rest : list (gmap string value)) (img text : value) :
  long_answer lib query (host_lang host) = Ok (first :: rest) →
  outcome (get_image lib (wiki s) query None) = Ok img →
  first !! "summary" = Some text →
  ask_the_wiki lib host query s
  = (Ok (py_or (default VNone (first !! "title")) (VStr query), text),
     with_image img (with_results (Some (first :: rest)) (with_idx 0
       (with_context (<["WikiKnows" := VStr query]> (context s)) s)))).
Proof.
  intros Hlong Himg Htext.
  unfold ask_the_wiki, sk_bind, set_context, sk_modify, sk_get, sk_solver, sk_lift.
  simpl. rewrite Hlong. simpl. rewrite Himg. simpl. by rewrite Htext.
Qed.

Lemma answered_cursor (lib : Library) (host : Host) (query : string) (s : skill)
    (first : gmap string value) (rest : list (gmap string value)) (img text : value) :
  long_answer lib query (host_lang host) = Ok (first :: rest) →
  outcome (get_image lib (wiki s) query None) = Ok img →
  first !! "summary" = Some text → truthy text = true →
  (results (after (handle_search lib host query) s) = Some (first :: rest)
   ∧ idx (after (handle_search lib host query) s) = 1)
  ∧ results (after (CQS_match_query_phrase lib host query) s) = Some (first :: rest)
  ∧ idx (after (CQS_match_query_phrase lib host query) s) = 1.
Proof.
  intros Hlong Himg Htext Htruthy. split.
  - unfold handle_search, after, sk_bind, gui_do, speak_dialog, sk_modify. simpl.
    match goal with
    | |- context [ask_the_wiki lib host query ?s0] => set (s1 := s0)
    end.
    rewrite (ask_the_wiki_chunks lib host query s1 first rest img text Hlong Himg Htext).
    simpl. rewrite Htruthy.
    match goal with
    | |- context [speak_result host ?s0] =>
        destruct (speak_result_emit host s0 (first :: rest) first text eq_refl
                    ltac:(done) eq_refl Htext) as (_ & Hi & Hr & _)
    end.
    by unfold after in *.
  - unfold CQS_match_query_phrase, after, sk_bind.
    rewrite (ask_the_wiki_chunks lib host query s first rest img text Hlong Himg Htext).
    simpl. by rewrite Htruthy.
Qed.

(** ** The exhaustion boundary, counted on "more" requests *)




(** X13.  What [handle_search] does with an answer.  When [long_answer]
    returns chunks and the image lookup returns, the skill keeps the chunks
    and the image; if the summary of the first chunk is not empty it is
    spoken after the dialog "searching" and the cursor is left at 1; if it is
    empty the skill says "no_answer" although it holds chunks, and the cursor
    stays at 0. *)
Theorem handle_search_answer (lib : Library) (host : Host) (query : string) (s : skill)
    (first : gmap string value) (rest : list (gmap string value)) (img text : value) :
  long_answer lib query (host_lang host) = Ok (first :: rest) →
  outcome (get_image lib (wiki s) query None) = Ok img →
  first !! "summary" = Some text →
  let s' := after (handle_search lib host query) s in
  returned (handle_search lib host query) s = Ok tt
  ∧ results s' = Some (first :: rest)
  ∧ image s' = img
  ∧ if truthy text
    then spoken s' = spoken s ++ [SpeakDialog "searching" (<["query" := VStr query]> ∅);
                                  Speak text]
         ∧ idx s' = 1
         ∧ context s' !! "WikiKnows" = Some (VStr "wikipedia")
    else spoken s' = spoken s ++ [SpeakDialog "searching" (<["query" := VStr query]> ∅);
                                  SpeakDialog "no_answer" ∅]
         ∧ idx s' = 0
         ∧ context s' !! "WikiKnows" = Some (VStr query).
Proof.
  intros Hlong Himg Htext s'. subst s'.
  unfold handle_search, returned, after, sk_bind, gui_do, speak_dialog, sk_modify.
  simpl.
  match goal with
  | |- context [ask_the_wiki lib host query ?s0] => set (s1 := s0)
  end.
  rewrite (ask_the_wiki_chunks lib host query s1 first rest img text Hlong Himg Htext).
  simpl.
  destruct (truthy text) eqn:Htruthy.
  - match goal with
    | |- context [speak_result host ?s0] =>
        destruct (speak_result_emit host s0 (first :: rest) first text eq_refl
                    ltac:(done) eq_refl Htext) as (Hret & Hi & Hr & Hsp & Hctx);
        destruct (speak_result_keeps host s0) as (_ & Him & _)
    end.
    unfold returned, after in *.
    split; [done|]. split; [done|]. split; [done|].
    split; [|done]. rewrite Hsp. simpl. by rewrite <- app_assoc.
  - simpl. split; [done|]. split; [done|]. split; [done|].
    split; [by rewrite <- app_assoc|]. split; [done|]. by rewrite lookup_insert_eq.
Qed.

Lemma handle_search_answer_witness :
  let s' := after (handle_search Demo.lib Demo.host "France")
              (WikipediaSkill_init Demo.lib Demo.host) in
  spoken s' = [SpeakDialog "searching" (<["query" := VStr "France"]> ∅);
               Speak (VStr "S1.")]
  ∧ idx s' = 1
  ∧ image s' = VStr "france.png".
Proof.
  intros s'.
  pose proof (handle_search_answer Demo.lib Demo.host "France"
                (WikipediaSkill_init Demo.lib Demo.host)
                (step (VStr "France") "S1." (VStr "france.png"))
                [step (VStr "France") "S2." (VStr "france.png");
                 step (VStr "History") "S3." (VStr "france.png")]
                (VStr "france.png") (VStr "S1.")
                ltac:(vm_compute; reflexivity) ltac:(vm_compute; reflexivity)
                ltac:(reflexivity)) as H.
  change (truthy (VStr "S1.")) with true in H. cbv iota zeta in H.
  destruct H as (_ & _ & Him & Hsp & Hi & _).
  split; [exact Hsp|]. split; [exact Hi|exact Him].
Defined.

(** X14.  What the common-query match returns.  With chunks and an image
    found, [CQS_match_query_phrase] answers with the summary of the first
    chunk, the level GENERAL and the callback data (query, image, title,
    answer), and counts that chunk as spoken; when that summary is empty it
    returns nothing and leaves the cursor at 0.  Either way the skill itself
    speaks nothing and shows nothing. *)
Theorem CQS_match_answer (lib : Library) (host : Host) (phrase : string) (s : skill)
    (first : gmap string value) (rest : list (gmap string value)) (img text : value) :
  long_answer lib phrase (host_lang host) = Ok (first :: rest) →
  outcome (get_image lib (wiki s) phrase None) = Ok img →
  first !! "summary" = Some text →
  let s' := after (CQS_match_query_phrase lib host phrase) s in
  returned (CQS_match_query_phrase lib host phrase) s
  = Ok (if truthy text
        then Some (phrase, GENERAL, text,
                   <["query" := VStr phrase]>
                     (<["image" := img]>
                        (<["title" := py_or (default VNone (first !! "title")) (VStr phrase)]>
                           (<["answer" := text]> ∅))))
        else None)
  ∧ idx s' = (if truthy text then 1 else 0)
  ∧ results s' = Some (first :: rest)
  ∧ spoken s' = spoken s
  ∧ gui s' = gui s.
Proof.
  intros Hlong Himg Htext s'. subst s'.
  unfold CQS_match_query_phrase, returned, after, sk_bind.
  rewrite (ask_the_wiki_chunks lib host phrase s first rest img text Hlong Himg Htext).
  simpl. by destruct (truthy text).
Qed.

Lemma CQS_match_answer_witness :
  returned (CQS_match_query_phrase Demo.lib Demo.host "France")
    (WikipediaSkill_init Demo.lib Demo.host)
  = Ok (Some ("France", GENERAL, VStr "S1.",
              <["query" := VStr "France"]>
                (<["image" := VStr "france.png"]>
                   (<["title" := VStr "France"]> (<["answer" := VStr "S1."]> ∅)))))
  ∧ idx (after (CQS_match_query_phrase Demo.lib Demo.host "France")
           (WikipediaSkill_init Demo.lib Demo.host)) = 1.
Proof.
  pose proof (CQS_match_answer Demo.lib Demo.host "France"
                (WikipediaSkill_init Demo.lib Demo.host)
                (step (VStr "France") "S1." (VStr "france.png"))
                [step (VStr "France") "S2." (VStr "france.png");
                 step (VStr "History") "S3." (VStr "france.png")]
                (VStr "france.png") (VStr "S1.")
                ltac:(vm_compute; reflexivity) ltac:(vm_compute; reflexivity)
                ltac:(reflexivity)) as H.
  change (truthy (VStr "S1.")) with true in H. cbv iota zeta in H.
  destruct H as (Hret & Hi & _).
  split; [exact Hret|exact Hi].
Defined.

(** X15.  After an answered search the "more" requests go on from the second
    chunk.  Whether the first chunk was spoken by [handle_search] or handed
    to the common query by [CQS_match_query_phrase], the n-th "more" request
    that follows speaks chunk n (counted from 0), and with N chunks the N-th
    says "thats all" and puts the cursor back to 0. *)
Theorem more_after_answer (lib : Library) (host : Host) (query : string) (s s1 : skill)
    (first : gmap string value) (rest : list (gmap string value)) (img text : value) :
  long_answer lib query (host_lang host) = Ok (first :: rest) →
  outcome (get_image lib (wiki s) query None) = Ok img →
  first !! "summary" = Some text → truthy text = true →
  (∀ chunk, chunk ∈ rest → is_Some (chunk !! "summary")) →
  s1 = after (handle_search lib host query) s
  ∨ s1 = after (CQS_match_query_phrase lib host query) s →
  (∀ n chunk t,
     rest !! n = Some chunk → chunk !! "summary" = Some t →
     spoken (tell_more_times host (S n) s1)
     = spoken (tell_more_times host n s1) ++ [Speak t])
  ∧ spoken (tell_more_times host (S (List.length rest)) s1)
    = spoken (tell_more_times host (List.length rest) s1) ++ [SpeakDialog "thats all" ∅]
  ∧ idx (tell_more_times host (S (List.length rest)) s1) = 0.
Proof.
  intros Hlong Himg Htext Htruthy Hrest Hs1.
  assert (results s1 = Some (first :: rest) ∧ idx s1 = Z.of_nat 1) as [Hres Hidx].
  { destruct (answered_cursor lib host query s first rest img text
                Hlong Himg Htext Htruthy) as [Hsearch Hmatch].
    by destruct Hs1 as [-> | ->]. }
  assert (∀ chunk, chunk ∈ first :: rest → is_Some (chunk !! "summary")) as Hsum.
  { intros chunk [->|Hin]%elem_of_cons; [by eexists|by apply Hrest]. }
  destruct (tell_more_from_speaks host s1 (first :: rest) 1 Hres Hidx
              ltac:(simpl; lia) Hsum) as (Hsp & Hend & Hzero & _).
  replace (List.length (first :: rest) - 1)%nat with (List.length rest) in *
    by (simpl; lia).
  split; [|done].
  intros n chunk t Hchunk Ht. by apply (Hsp n chunk t).
Qed.

Lemma more_after_answer_witness :
  let s1 := after (CQS_match_query_phrase Demo.lib Demo.host "France")
              (WikipediaSkill_init Demo.lib Demo.host) in
  spoken (tell_more_times Demo.host 1 s1) = spoken s1 ++ [Speak (VStr "S2.")]
  ∧ spoken (tell_more_times Demo.host 3 s1)
    = spoken (tell_more_times Demo.host 2 s1) ++ [SpeakDialog "thats all" ∅].
Proof.
  intros s1.
  destruct (more_after_answer Demo.lib Demo.host "France"
              (WikipediaSkill_init Demo.lib Demo.host) s1
              (step (VStr "France") "S1." (VStr "france.png"))
              [step (VStr "France") "S2." (VStr "france.png");
               step (VStr "History") "S3." (VStr "france.png")]
              (VStr "france.png") (VStr "S1.")
              ltac:(vm_compute; reflexivity) ltac:(vm_compute; reflexivity)
              ltac:(reflexivity) ltac:(reflexivity)) as (Hsp & Hend & _).
  - intros chunk Hin. apply list_elem_of_In in Hin.
    destruct Hin as [<-|[<-|[]]]; eexists; reflexivity.
  - right. reflexivity.
  - split; [|exact Hend].
    apply (Hsp 0%nat (step (VStr "France") "S2." (VStr "france.png")) (VStr "S2."));
      reflexivity.
Defined.

(** X16.  Exhaustion is not the end: once "thats all" has been said, a further
    "more" request starts again with the first chunk and sets the context
    marker anew. *)
Theorem more_wraps_around (host : Host) (s : skill) (chunks : list (gmap string value))
    (first : gmap string value) (text : value) :
  results s = Some chunks → Z.of_nat (List.length chunks) ≤ idx s →
  chunks !! 0%nat = Some first → first !! "summary" = Some text →
  spoken (tell_more_times host 2 s)
  = spoken s ++ [SpeakDialog "thats all" ∅; Speak text]
  ∧ idx (tell_more_times host 2 s) = 1
  ∧ context (tell_more_times host 1 s) !! "WikiKnows" = None
  ∧ context (tell_more_times host 2 s) !! "WikiKnows" = Some (VStr "wikipedia").
Proof.
  intros Hres Hidx Hfirst Htext.
  cbn [tell_more_times]. unfold handle_tell_more.
  destruct (speak_result_exhausted host s chunks Hres Hidx) as (_ & Hi & Hr & Hsp & Hctx).
  destruct (speak_result_emit host _ chunks first text Hr ltac:(lia)
              ltac:(by rewrite Hi) Htext) as (_ & Hi' & _ & Hsp' & Hctx').
  rewrite Hsp', Hsp, Hi', Hi, <- app_assoc. done.
Qed.

Lemma more_wraps_around_witness :
  let s := tell_more_times Demo.host 3
             (after (ask_the_wiki Demo.lib Demo.host "France")
                (WikipediaSkill_init Demo.lib Demo.host)) in
  spoken (tell_more_times Demo.host 2 s)
  = spoken s ++ [SpeakDialog "thats all" ∅; Speak (VStr "S1.")]
  ∧ idx (tell_more_times Demo.host 2 s) = 1.
Proof.
  intros s.
  destruct (more_wraps_around Demo.host s
              [step (VStr "France") "S1." (VStr "france.png");
               step (VStr "France") "S2." (VStr "france.png");
               step (VStr "History") "S3." (VStr "france.png")]
              (step (VStr "France") "S1." (VStr "france.png")) (VStr "S1.")
              ltac:(vm_compute; reflexivity) ltac:(vm_compute; discriminate)
              ltac:(reflexivity) ltac:(reflexivity)) as (Hsp & Hi & _).
  split; [exact Hsp|exact Hi].
Defined.

(** X17.  With no chunk held (before any search, or after a search whose
    answer was empty) every "more" request says "thats all" and nothing
    else, and the cursor is 0 after each of them. *)
Theorem more_without_chunks (host : Host) (s : skill) (n : nat) :
  results s = Some [] → 0 ≤ idx s →
  spoken (tell_more_times host n s) = spoken s ++ replicate n (SpeakDialog "thats all" ∅)
  ∧ results (tell_more_times host n s) = Some []
  ∧ 0 ≤ idx (tell_more_times host n s)
  ∧ ((0 < n)%nat → idx (tell_more_times host n s) = 0).
Proof.
  intros Hres Hidx. induction n as [|n (Hsp & Hr & Hi & _)].
  - simpl. rewrite app_nil_r. repeat split; [done..|lia].
  - cbn [tell_more_times]. unfold handle_tell_more.
    destruct (speak_result_exhausted host _ [] Hr ltac:(simpl; lia))
      as (_ & Hi' & Hr' & Hsp' & _).
    rewrite Hsp', Hsp, <- app_assoc.
    replace (S n) with (n + 1)%nat by lia. rewrite replicate_add. simpl.
    repeat split; [done|lia|done].
Qed.

Lemma more_without_chunks_witness :
  spoken (tell_more_times Demo.host 2 (WikipediaSkill_init Demo.lib Demo.host))
  = [SpeakDialog "thats all" ∅; SpeakDialog "thats all" ∅].
Proof.
  exact (proj1 (more_without_chunks Demo.host (WikipediaSkill_init Demo.lib Demo.host) 2
                  ltac:(reflexivity) ltac:(simpl; lia))).
Defined.

(** X18.  A search that finds no chunk.  When [long_answer] returns an empty
    list, [handle_search] says "no_answer", the common-query match returns
    nothing, and the skill holds an empty list with the cursor at 0 (so that
    a later "more" request says "thats all"). *)
Theorem empty_answer (lib : Library) (host : Host) (query : string) (s : skill)
    (img : value) :
  long_answer lib query (host_lang host) = Ok [] →
  outcome (get_image lib (wiki s) query None) = Ok img →
  (returned (handle_search lib host query) s = Ok tt
   ∧ spoken (after (handle_search lib host query) s)
     = spoken s ++ [SpeakDialog "searching" (<["query" := VStr query]> ∅);
                    SpeakDialog "no_answer" ∅]
   ∧ results (after (handle_search lib host query) s) = Some []
   ∧ idx (after (handle_search lib host query) s) = 0
   ∧ spoken (after (handle_tell_more host) (after (handle_search lib host query) s))
     = spoken (after (handle_search lib host query) s) ++ [SpeakDialog "thats all" ∅])
  ∧ returned (CQS_match_query_phrase lib host query) s = Ok None
  ∧ results (after (CQS_match_query_phrase lib host query) s) = Some []
  ∧ idx (after (CQS_match_query_phrase lib host query) s) = 0.
Proof.
  intros Hlong Himg.
  assert (∀ s0, wiki s0 = wiki s →
            ask_the_wiki lib host query s0
            = (Ok (VNone, VNone),
               with_image img (with_results (Some []) (with_idx 0
                 (with_context (<["WikiKnows" := VStr query]> (context s0)) s0)))))
    as Hask.
  { intros s0 Hw.
    unfold ask_the_wiki, sk_bind, set_context, sk_modify, sk_get, sk_solver, sk_lift.
    simpl. rewrite Hlong. simpl. rewrite Hw, Himg. done. }
  split.
  - assert (after (handle_search lib host query) s
            = with_spoken (spoken s ++ [SpeakDialog "searching" (<["query" := VStr query]> ∅);
                                        SpeakDialog "no_answer" ∅])
                (with_image img (with_results (Some []) (with_idx 0
                  (with_context (<["WikiKnows" := VStr query]> (context s))
                    (with_image VNone (with_current_title (VStr query)
                      (with_gui (gui s ++ [ShowAnimatedImage jumping_gif]) s)))))))
              ∧ returned (handle_search lib host query) s = Ok tt) as [Hafter Hret].
    { unfold handle_search, returned, after, sk_bind, gui_do, speak_dialog, sk_modify.
      simpl. rewrite Hask by done. simpl. by rewrite <- app_assoc. }
    split; [done|]. rewrite Hafter. simpl. repeat split; try done.
  - unfold CQS_match_query_phrase, returned, after, sk_bind.
    rewrite Hask by done. done.
Qed.

Lemma empty_answer_witness :
  spoken (after (handle_search Demo.core Demo.host "France")
            (WikipediaSkill_init Demo.core Demo.host))
  = [SpeakDialog "searching" (<["query" := VStr "France"]> ∅);
     SpeakDialog "no_answer" ∅]
  ∧ returned (CQS_match_query_phrase Demo.core Demo.host "France")
      (WikipediaSkill_init Demo.core Demo.host) = Ok None.
Proof.
  destruct (empty_answer Demo.core Demo.host "France"
              (WikipediaSkill_init Demo.core Demo.host) (VStr "france.png")
              ltac:(reflexivity) ltac:(vm_compute; reflexivity))
    as ((_ & Hsp & _) & Hret & _).
  split; [exact Hsp|exact Hret].
Defined.

(** ** Requests that leave the answer alone *)

Lemma ask_the_wiki_keeps (lib : Library) (host : Host) (query : string) (s : skill) :
  wiki (after (ask_the_wiki lib host query) s) = wiki s
  ∧ spoken (after (ask_the_wiki lib host query) s) = spoken s
  ∧ gui (after (ask_the_wiki lib host query) s) = gui s
  ∧ context (after (ask_the_wiki lib host query) s) !! "WikiKnows" = Some (VStr query).
Proof.
  unfold ask_the_wiki, after, sk_bind, set_context, sk_modify, sk_get, sk_solver, sk_lift.
  simpl.
  destruct (long_answer lib query (host_lang host)) as [r|e]; simpl.
  - destruct (outcome (get_image lib (wiki s) query None)); simpl;
      [|by rewrite lookup_insert_eq].
    destruct r as [|c r]; simpl; [by rewrite lookup_insert_eq|].
    unfold results_index, list_index. simpl.
    destruct (c !! "summary"); simpl; by rewrite lookup_insert_eq.
  - destruct (outcome (get_image lib (wiki s) query None)); simpl;
      by rewrite lookup_insert_eq.
Qed.

Lemma display_wiki_entry_keeps (host : Host) (title image_arg : value) (s : skill) :
  wiki (after (display_wiki_entry host title image_arg) s) = wiki s
  ∧ image (after (display_wiki_entry host title image_arg) s) = image s.
Proof.
  unfold display_wiki_entry, after.
  destruct (can_use_gui host); simpl; [|done].
  unfold sk_bind, sk_get. simpl.
  by destruct (truthy (py_or image_arg (image s))).
Qed.

Lemma handle_wiki (lib : Library) (host : Host) (r : request) (s : skill) :
  wiki (handle lib host r s) = wiki s.
Proof.
  destruct r as [query| | |phrase|phrase data|]; simpl.
  - unfold handle_search, after, sk_bind, gui_do, speak_dialog, sk_modify. simpl.
    match goal with
    | |- context [ask_the_wiki lib host query ?s'] =>
        pose proof (ask_the_wiki_keeps lib host query s') as (Hw & _);
        unfold after in Hw;
        destruct (ask_the_wiki lib host query s') as [[[title summary]|e] s'']
    end; simpl in *; [|done].
    destruct (truthy summary); [|done].
    destruct (speak_result_keeps host s'') as (Hw' & _). unfold after in Hw'.
    by rewrite Hw'.
  - done.
  - by destruct (speak_result_keeps host s) as (Hw' & _).
  - unfold CQS_match_query_phrase, after, sk_bind.
    pose proof (ask_the_wiki_keeps lib host phrase s) as (Hw & _). unfold after in Hw.
    destruct (ask_the_wiki lib host phrase s) as [[[title summary]|e] s']; simpl in *;
      [|done].
    by destruct (truthy summary).
  - unfold CQS_action, after, sk_bind.
    pose proof (display_wiki_entry_keeps host (VStr "Wikipedia") VNone s) as (Hw & _).
    unfold after in Hw.
    destruct (display_wiki_entry host (VStr "Wikipedia") VNone s) as [[[]|e] s'];
      simpl in *; [|done].
    unfold sk_lift. by destruct (py_get data "title" VNone).
  - done.
Qed.

(** X19.  The solver of the skill is built once and never replaced: in every
    state the skill can reach its configuration is the single entry
    "lang" = "en", whatever language the host and the settings name. *)
Theorem reachable_solver_english (s : skill) :
  reachable s → solver_config (wiki s) = <["lang" := VStr "en"]> ∅.
Proof.
  induction 1 as [lib host|lib host r s _ IH].
  - unfold WikipediaSkill_init. simpl. apply solver_init_config_skill.
  - by rewrite handle_wiki.
Qed.

Lemma reachable_solver_english_witness :
  solver_config (wiki (handle Demo.lib Demo.host ReqTellMore
                         (handle Demo.lib Demo.host (ReqSearch "France")
                            (WikipediaSkill_init Demo.lib Demo.host))))
  = <["lang" := VStr "en"]> ∅.
Proof.
  apply (reachable_solver_english _
           (reachable_step Demo.lib Demo.host ReqTellMore _
              (reachable_step Demo.lib Demo.host (ReqSearch "France") _
                 (reachable_init Demo.lib Demo.host)))).
Defined.

(** X20.  The roulette, the common-query callback and stop do not touch the
    answer: chunks and cursor are as before, so a "more" request that follows
    speaks what it would have spoken.  The roulette consults no library: it
    says "wikiroulette" and forgets the image. *)
Theorem side_requests_keep_answer (lib : Library) (host : Host) (r : request) (s : skill) :
  r = ReqRoulette ∨ r = ReqStop ∨ (∃ phrase data, r = ReqCQSAction phrase data) →
  idx (handle lib host r s) = idx s
  ∧ results (handle lib host r s) = results s
  ∧ returned (handle_tell_more host) (handle lib host r s)
    = returned (handle_tell_more host) s
  ∧ (r = ReqRoulette →
     spoken (handle lib host r s) = spoken s ++ [SpeakDialog "wikiroulette" ∅]
     ∧ image (handle lib host r s) = VNone).
Proof.
  intros Hr.
  assert (∀ s1 s2 : skill, idx s1 = idx s2 → results s1 = results s2 →
            returned (handle_tell_more host) s1 = returned (handle_tell_more host) s2)
    as Hmore.
  { intros s1 s2 Hi Hres.
    unfold handle_tell_more, speak_result, returned, sk_bind, sk_get, sk_lift. simpl.
    rewrite Hi, Hres.
    destruct (results s2) as [chunks|]; simpl; [|done].
    destruct (idx s2 + 1 >? Z.of_nat (List.length chunks)); simpl; [done|].
    destruct (list_index chunks (idx s2)) as [chunk|e]; simpl; [|done].
    destruct (chunk !! "summary") as [text|]; simpl; [|done].
    pose proof (display_wiki_entry_frame host (default (VStr "Wikipedia") (chunk !! "title"))
                  VNone) as Hd.
    unfold returned in Hd.
    match goal with
    | |- (let (_, _) := display_wiki_entry host ?t VNone ?a in _).1
         = (let (_, _) := display_wiki_entry host ?t VNone ?b in _).1 =>
        destruct (Hd a) as (Ha & _); destruct (Hd b) as (Hb & _);
        destruct (display_wiki_entry host t VNone a) as [ra sa];
        destruct (display_wiki_entry host t VNone b) as [rb sb]
    end.
    simpl in *. by subst. }
  destruct Hr as [-> | [-> | (phrase & data & ->)]]; simpl.
  - repeat split; try done. by apply Hmore.
  - repeat split; try done. by apply Hmore.
  - assert (idx (after (CQS_action host phrase data) s) = idx s
            ∧ results (after (CQS_action host phrase data) s) = results s) as [Hi Hres].
    { unfold CQS_action, after, sk_bind.
      pose proof (display_wiki_entry_frame host (VStr "Wikipedia") VNone s)
        as (_ & Hi & Hres & _).
      unfold after in Hi, Hres.
      destruct (display_wiki_entry host (VStr "Wikipedia") VNone s) as [[[]|e] s'];
        simpl in *; [|done].
      unfold sk_lift. by destruct (py_get data "title" VNone). }
    repeat split; try done. by apply Hmore.
Qed.

Lemma side_requests_keep_answer_witness :
  let s := after (handle_search Demo.lib Demo.host "France")
             (WikipediaSkill_init Demo.lib Demo.host) in
  idx (handle Demo.lib Demo.host ReqRoulette s) = idx s
  ∧ results (handle Demo.lib Demo.host ReqRoulette s) = results s.
Proof.
  intros s.
  destruct (side_requests_keep_answer Demo.lib Demo.host ReqRoulette s
              ltac:(left; reflexivity)) as (Hi & Hres & _).
  split; [exact Hi|exact Hres].
Defined.

Lemma ask_the_wiki_first (lib : Library) (host : Host) (query : string) (s : skill)
    (title summary : value) :
  returned (ask_the_wiki lib host query) s = Ok (title, summary) →
  truthy summary = true →
  ∃ first rest,
    results (after (ask_the_wiki lib host query) s) = Some (first :: rest)
    ∧ first !! "summary" = Some summary.
Proof.
  unfold ask_the_wiki, returned, after, sk_bind, set_context, sk_modify, sk_get, sk_solver,
    sk_lift.
  simpl.
  destruct (long_answer lib query (host_lang host)) as [r|e]; simpl.
  - destruct (outcome (get_image lib (wiki s) query None)); simpl; [|done].
    destruct r as [|c r]; simpl.
    + by intros [= <- <-].
    + unfold results_index, list_index. simpl.
      destruct (c !! "summary") as [text|] eqn:Htext; simpl; [|done].
      intros [= <- <-] _. by exists c, r.
  - destruct (outcome (get_image lib (wiki s) query None)); simpl; [|done].
    by intros [= <- <-].
Qed.

(** X21.  Every search sets the context marker, also one that finds nothing
    or whose solver fails: after [handle_search] the marker "WikiKnows" is
    "wikipedia" or the query itself, and after the common-query match it is
    the phrase. *)
Theorem search_sets_context (lib : Library) (host : Host) (query : string) (s : skill) :
  (context (after (handle_search lib host query) s) !! "WikiKnows" = Some (VStr "wikipedia")
   ∨ context (after (handle_search lib host query) s) !! "WikiKnows" = Some (VStr query))
  ∧ context (after (CQS_match_query_phrase lib host query) s) !! "WikiKnows"
    = Some (VStr query).
Proof.
  split.
  - unfold handle_search, after, sk_bind, gui_do, speak_dialog, sk_modify. simpl.
    match goal with
    | |- context [ask_the_wiki lib host query ?s'] =>
        pose proof (ask_the_wiki_keeps lib host query s') as (_ & _ & _ & Hc);
        pose proof (ask_the_wiki_idx lib host query s') as Hi;
        pose proof (ask_the_wiki_first lib host query s') as Hans;
        unfold after, returned in Hc, Hi, Hans;
        destruct (ask_the_wiki lib host query s') as [[[title summary]|e] s'']
    end; simpl in *; [|by right].
    destruct (truthy summary) eqn:Htruthy; [|by right].
    left. destruct (Hans title summary eq_refl Htruthy) as (first & rest & Hres & Htext).
    by destruct (speak_result_emit host s'' (first :: rest) first summary Hres
                   ltac:(lia) ltac:(by rewrite Hi) Htext) as (_ & _ & _ & _ & ?).
  - unfold CQS_match_query_phrase, after, sk_bind.
    pose proof (ask_the_wiki_keeps lib host query s) as (_ & _ & _ & Hc).
    unfold after in Hc.
    destruct (ask_the_wiki lib host query s) as [[[title summary]|e] s']; simpl in *;
      [|done].
    by destruct (truthy summary).
Qed.

(** X22.  What a search shows.  [handle_search] always starts the waiting
    animation, GUI or not; when the first chunk is spoken, the image found by
    [get_image] is shown under that chunk's title ("Wikipedia" if it has
    none), provided the host has a GUI and the image is not empty, and
    nothing more is shown otherwise. *)
Theorem handle_search_shows (lib : Library) (host : Host) (query : string) (s : skill)
    (first : gmap string value) (rest : list (gmap string value)) (img text : value) :
  long_answer lib query (host_lang host) = Ok (first :: rest) →
  outcome (get_image lib (wiki s) query None) = Ok img →
  first !! "summary" = Some text → truthy text = true →
  gui (after (handle_search lib host query) s)
  = gui s ++ ShowAnimatedImage jumping_gif
       :: (if can_use_gui host && truthy img
           then [ShowImage img (default (VStr "Wikipedia") (first !! "title"))]
           else []).
Proof.
  intros Hlong Himg Htext Htruthy.
  unfold handle_search, after, sk_bind, gui_do, speak_dialog, sk_modify.
  simpl.
  match goal with
  | |- context [ask_the_wiki lib host query ?s0] => set (s1 := s0)
  end.
  rewrite (ask_the_wiki_chunks lib host query s1 first rest img text Hlong Himg Htext).
  simpl. rewrite Htruthy.
  unfold speak_result, sk_bind, sk_get, sk_lift. simpl.
  destruct (0 + 1 >? Z.of_nat (S (List.length rest))) eqn:Hgt; [apply Z.gtb_lt in Hgt; lia|].
  rewrite Htext. simpl.
  unfold display_wiki_entry. destruct (can_use_gui host); simpl; [|done].
  unfold sk_bind, sk_get. simpl.
  change (py_or VNone img) with img.
  destruct (truthy img); simpl; [|done]. by rewrite <- app_assoc.
Qed.

Lemma handle_search_shows_witness :
  gui (after (handle_search Demo.lib Demo.host "France")
         (WikipediaSkill_init Demo.lib Demo.host))
  = [ShowAnimatedImage jumping_gif; ShowImage (VStr "france.png") (VStr "France")].
Proof.
  exact (handle_search_shows Demo.lib Demo.host "France"
           (WikipediaSkill_init Demo.lib Demo.host)
           (step (VStr "France") "S1." (VStr "france.png"))
           [step (VStr "France") "S2." (VStr "france.png");
            step (VStr "History") "S3." (VStr "france.png")]
           (VStr "france.png") (VStr "S1.")
           ltac:(vm_compute; reflexivity) ltac:(vm_compute; reflexivity)
           ltac:(reflexivity) ltac:(reflexivity)).
Defined.

Lemma py_or_idem (a b : value) : py_or (py_or a b) b = py_or a b.
Proof.
  unfold py_or. destruct (truthy a) eqn:Ha; [by rewrite Ha|]. by destruct (truthy b).
Qed.

(** X23.  The common-query round trip.  When the match has answered and the
    common query selects it, [CQS_action], given the phrase and the callback
    data of the match, sets the context marker to the title of the first
    chunk (the phrase when it has none), shows the image of the match under
    the title "Wikipedia" if the host has a GUI and the image is not empty,
    and leaves the cursor after the first chunk. *)
Theorem CQS_round_trip (lib : Library) (host : Host) (phrase : string) (s : skill)
    (first : gmap string value) (rest : list (gmap string value)) (img text : value)
    (level : CQSMatchLevel) (answer : value) (data : gmap string value) :
  long_answer lib phrase (host_lang host) = Ok (first :: rest) →
  outcome (get_image lib (wiki s) phrase None) = Ok img →
  first !! "summary" = Some text →
  returned (CQS_match_query_phrase lib host phrase) s
  = Ok (Some (phrase, level, answer, data)) →
  let s1 := after (CQS_match_query_phrase lib host phrase) s in
  let s2 := after (CQS_action host phrase (VDict data)) s1 in
  returned (CQS_action host phrase (VDict data)) s1 = Ok tt
  ∧ context s2 !! "WikiKnows"
    = Some (py_or (default VNone (first !! "title")) (VStr phrase))
  ∧ gui s2 = gui s ++ (if can_use_gui host && truthy img
                       then [ShowImage img (VStr "Wikipedia")] else [])
  ∧ idx s2 = 1
  ∧ results s2 = Some (first :: rest).
Proof.
  intros Hlong Himg Htext Hret s1 s2. subst s1 s2. revert Hret.
  unfold CQS_match_query_phrase, returned, after, sk_bind.
  rewrite (ask_the_wiki_chunks lib host phrase s first rest img text Hlong Himg Htext).
  simpl. destruct (truthy text); simpl; [|done].
  intros [= <- <- <-].
  assert ((<["query" := VStr phrase]>
             (<["image" := img]>
                (<["title" := py_or (default VNone (first !! "title")) (VStr phrase)]>
                   (<["answer" := text]> ∅))) : gmap string value) !! "title"
          = Some (py_or (default VNone (first !! "title")) (VStr phrase))) as Htitle.
  { rewrite lookup_insert_ne by done. rewrite lookup_insert_ne by done.
    by rewrite lookup_insert_eq. }
  unfold CQS_action, display_wiki_entry, sk_bind, sk_get, sk_lift.
  destruct (can_use_gui host); simpl.
  - change (py_or VNone img) with img.
    destruct (truthy img); simpl;
      rewrite lookup_insert_eq, Htitle; simpl; rewrite py_or_idem, ?app_nil_r; done.
  - rewrite lookup_insert_eq, Htitle. simpl. by rewrite py_or_idem, ?app_nil_r.
Qed.

Lemma CQS_round_trip_witness :
  let s := WikipediaSkill_init Demo.lib Demo.host in
  let data := <["query" := VStr "France"]>
                (<["image" := VStr "france.png"]>
                   (<["title" := VStr "France"]> (<["answer" := VStr "S1."]> ∅))) in
  let s2 := after (CQS_action Demo.host "France" (VDict data))
              (after (CQS_match_query_phrase Demo.lib Demo.host "France") s) in
  context s2 !! "WikiKnows" = Some (VStr "France")
  ∧ gui s2 = [ShowImage (VStr "france.png") (VStr "Wikipedia")].
Proof.
  intros s data s2.
  destruct (CQS_round_trip Demo.lib Demo.host "France" s
              (step (VStr "France") "S1." (VStr "france.png"))
              [step (VStr "France") "S2." (VStr "france.png");
               step (VStr "History") "S3." (VStr "france.png")]
              (VStr "france.png") (VStr "S1.") GENERAL (VStr "S1.") data
              ltac:(vm_compute; reflexivity) ltac:(vm_compute; reflexivity)
              ltac:(reflexivity) ltac:(vm_compute; reflexivity)) as (_ & Hctx & Hgui & _).
  split; [exact Hctx|exact Hgui].
Defined.
